(** * COVID-19 mortality dashboard: the filter-and-aggregate pipeline

    A shallow embedding of the two Streamlit scripts [code.py] and
    [covid.py].  Both are straight-line programs over one pandas DataFrame:
    [load_data] derives three columns, the sidebar yields a filter
    selection, five boolean-mask steps build [filtered], an emptiness check
    stops the run, and a handful of group-by/sum reducers feed the charts.

    Modelling conventions.
    - A DataFrame is the list of its rows, in index order.  Boolean-mask
      selection [df[mask]] is [List.filter]: it keeps the selected rows in
      their original order.
    - A nullable column (NaN / NaT in pandas) is an [option].  [Country],
      [Who_region], [Wb_income] and the CSV's [Deaths] are nullable; the
      scripts call [dropna()] or [fillna] on exactly these.  [Year], [Month]
      and [Agegroup] are read as present: the scripts take [int] of the
      year bounds, and sort the distinct age labels without [dropna].
    - [Deaths] is a column of whole numbers, held as int64: a sum that
      leaves the 64-bit range wraps around, as numpy's does.  A file with a
      blank [Deaths] cell is read as float64 instead; such a column holds
      every sum exactly as long as the counts add up to less than 2^53, and
      [load_data] answers only for files within that range.
    - [pd.to_datetime] reads the whole date column against one format,
      which it takes from the first line.  A timestamp it builds is the
      first day of a month and is kept as a (year, month) pair.
      [load_data] answers for the first lines and the years listed at
      [guess_datetime_format] and [line_modelled], and is [None] elsewhere.
    - [groupby(...)] uses pandas' defaults: groups are emitted in key
      order, and rows with a null key are left out ([dropna=True]).
    - The widgets and the drawing of the charts are outside the model: a
      reducer is the table handed to the chart. *)

From Stdlib Require Import ZArith List String Ascii Bool Lia Permutation Sorted.
From Stdlib Require Import OrderedTypeEx QArith.
Import ListNotations.

Local Open Scope Z_scope.

(** ** Nullable cells *)

Definition notna {A : Type} (x : option A) : bool :=
  match x with Some _ => true | None => false end.

(** [col == v]: a null cell never equals a value. *)
Definition eq_label (x : option string) (v : string) : bool :=
  match x with Some s => String.eqb s v | None => false end.

(** [col != v]: the negation of [==], so a null cell is unequal to anything. *)
Definition ne_label (x : option string) (v : string) : bool :=
  negb (eq_label x v).

(** [col.isin(values)] on a string column without nulls. *)
Definition isin_str (x : string) (values : list string) : bool :=
  existsb (String.eqb x) values.

(** [col.isin(values)] on a nullable column: a null cell is in no list of
    strings. *)
Definition isin (x : option string) (values : list string) : bool :=
  match x with Some s => isin_str s values | None => false end.

(** ** 64-bit counts *)

(** The value an int64 cell holds once an addition has left the 64-bit
    range. *)
Definition wrap64 (z : Z) : Z := (z + 2 ^ 63) mod 2 ^ 64 - 2 ^ 63.

(** [a + b] on int64. *)
Definition add64 (a b : Z) : Z := wrap64 (a + b).

Definition in_int64 (z : Z) : bool := (- 2 ^ 63 <=? z) && (z <? 2 ^ 63).

(** ** Timestamps *)

Record Timestamp : Type := mkTimestamp { ts_year : Z; ts_month : Z }.

Definition ts_compare (a b : Timestamp) : comparison :=
  match ts_year a ?= ts_year b with
  | Eq => ts_month a ?= ts_month b
  | c => c
  end.

(** [a <= b] on timestamps. *)
Definition ts_leb (a b : Timestamp) : bool :=
  match ts_compare a b with Gt => false | _ => true end.

(** [t - pd.DateOffset(months=12)]: the same day and month one year back. *)
Definition minus_12_months (t : Timestamp) : Timestamp :=
  mkTimestamp (ts_year t - 1) (ts_month t).

(** *** Reading the date column *)

(** [load_data] hands [pd.to_datetime] one text per line,
    [str(Year) + "-" + str(Month) + "-01"]; a line is kept here as its
    (year, month) pair.  pandas takes the format of the whole column from
    the first line, then reads every line against that format; under
    [errors="coerce"] a line that does not match becomes NaT. *)
Inductive DateFormat : Type :=
| Ymd       (* "%Y-%m-%d", taken from a first line such as 2021-1-01 *)
| YmdDash.  (* "%Y--%m-%d", taken from a first line such as 2021--1-01 *)

(** "%Y" takes exactly four digits. *)
Definition four_digits (year : Z) : bool := (1000 <=? year) && (year <=? 9999).

(** The years whose months, and the months twelve months before them, all
    lie inside the range of a nanosecond timestamp (late 1677 to early
    2262). *)
Definition year_in_range (year : Z) : bool := (1679 <=? year) && (year <=? 2261).

(** "%m" takes 1 to 12, with or without a leading zero. *)
Definition month_ok (month : Z) : bool := (1 <=? month) && (month <=? 12).

(** The format taken from the first line: the usual one when its month is
    a calendar month, the one with two dashes when its month is minus a
    calendar month (its text then opens with a dash of its own).  Other
    first lines are outside the model. *)
Definition guess_datetime_format (year month : Z) : option DateFormat :=
  if year_in_range year then
    if month_ok month then Some Ymd
    else if month_ok (- month) then Some YmdDash
    else None
  else None.

(** The month a line's month text stands for under a format, if it
    matches. *)
Definition month_under (fmt : DateFormat) (month : Z) : option Z :=
  match fmt with
  | Ymd => if month_ok month then Some month else None
  | YmdDash => if month_ok (- month) then Some (- month) else None
  end.

(** One line read against the format; NaT where the year is not four
    digits or the month text does not match. *)
Definition strptime (fmt : DateFormat) (line : Z * Z) : option Timestamp :=
  if year_in_range (fst line)
  then option_map (mkTimestamp (fst line)) (month_under fmt (snd line))
  else None.

(** The lines the model follows: all but those that match the format with
    a four-digit year outside [year_in_range]. *)
Definition line_modelled (fmt : DateFormat) (line : Z * Z) : bool :=
  negb (four_digits (fst line)) || year_in_range (fst line)
  || negb (notna (month_under fmt (snd line))).

(** [pd.to_datetime(texts, errors="coerce")] on the whole column. *)
Definition to_datetime (lines : list (Z * Z)) : option (list (option Timestamp)) :=
  match lines with
  | [] => Some []
  | (year, month) :: _ =>
      match guess_datetime_format year month with
      | Some fmt =>
          if forallb (line_modelled fmt) lines
          then Some (map (strptime fmt) lines)
          else None
      | None => None
      end
  end.

(** ** The dataset *)

(** One line of the CSV as [pd.read_csv] delivers it. *)
Record CsvRow : Type := mkCsvRow {
  csv_Country : option string;
  csv_Who_region : option string;
  csv_Wb_income : option string;
  csv_Year : Z;
  csv_Month : Z;
  csv_Agegroup : string;
  csv_Deaths : option Z
}.

(** One row of [df] after [load_data]. *)
Record Row : Type := mkRow {
  Country : option string;
  Who_region : option string;
  Wb_income : option string;
  Year : Z;
  Month : Z;
  Agegroup : string;
  Deaths : Z;
  Date : option Timestamp;
  Agegroup_pretty : string;
  Who_region_pretty : option string
}.

Definition DataFrame : Type := list Row.

(** A Python dict with string keys, as an association list. *)
Fixpoint dict_get (d : list (string * string)) (k : string) : option string :=
  match d with
  | [] => None
  | (k', v) :: d' => if String.eqb k k' then Some v else dict_get d' k
  end.

Definition age_map : list (string * string) :=
  [ ("0_4", "0–4"); ("5_14", "5–14"); ("15_64", "15–64"); ("65+", "65+") ]%string.

Definition region_map : list (string * string) :=
  [ ("AFR", "African Region");
    ("AMR", "Region of the Americas");
    ("EMR", "Eastern Mediterranean Region");
    ("EUR", "European Region");
    ("SEAR", "South-East Asia Region");
    ("WPR", "Western Pacific Region") ]%string.

(** [col.map(d).fillna(col)] on one cell: the mapped label, else the code. *)
Definition map_fillna (d : list (string * string)) (code : string) : string :=
  match dict_get d code with Some label => label | None => code end.

(** [df["Deaths"].fillna(0)] on one cell. *)
Definition fillna0 (x : option Z) : Z :=
  match x with Some d => d | None => 0 end.

(** [Series.sum()] of whole numbers, before any wrap or rounding. *)
Definition exact_sum (l : list Z) : Z := fold_right Z.add 0 l.

(** The [Deaths] columns the model follows.  Without a blank cell
    [read_csv] yields int64, and every cell must fit it; with a blank cell
    it yields float64, which holds the cells and all their sums exactly
    while the counts add up to less than 2^53. *)
Definition deaths_modelled (cells : list (option Z)) : bool :=
  if forallb notna cells
  then forallb (fun x => in_int64 (fillna0 x)) cells
  else exact_sum (map (fun x => Z.abs (fillna0 x)) cells) <? 2 ^ 53.

(** The columns [load_data] sets on one row, given the date read for it.
    [covid.py] stops after [Agegroup_pretty]; it never reads
    [Who_region_pretty]. *)
Definition load_row (c : CsvRow) (date : option Timestamp) : Row :=
  {| Country := csv_Country c;
     Who_region := csv_Who_region c;
     Wb_income := csv_Wb_income c;
     Year := csv_Year c;
     Month := csv_Month c;
     Agegroup := csv_Agegroup c;
     Deaths := fillna0 (csv_Deaths c);
     Date := date;
     Agegroup_pretty := map_fillna age_map (csv_Agegroup c);
     Who_region_pretty := option_map (map_fillna region_map) (csv_Who_region c) |}.

(** [None] stands for a file outside the model (see [to_datetime] and
    [deaths_modelled]), not for a failure of the script. *)
Definition load_data (csv : list CsvRow) : option DataFrame :=
  if deaths_modelled (map csv_Deaths csv)
  then option_map
         (fun dates => map (fun cd => load_row (fst cd) (snd cd)) (combine csv dates))
         (to_datetime (map (fun c => (csv_Year c, csv_Month c)) csv))
  else None.

(** The frame of a file the model follows. *)
Definition loaded (csv : list CsvRow) : DataFrame :=
  match load_data csv with Some df => df | None => [] end.

(** One line of the file under the format [fmt] of the date column. *)
Definition load_line (fmt : DateFormat) (c : CsvRow) : Row :=
  load_row c (strptime fmt (csv_Year c, csv_Month c)).

(** ** The filter selection *)

Record FilterSpec : Type := mkFilterSpec {
  region_selected : string;
  income_selected : string;
  countries_selected : list string;
  agegroups_selected : list string;
  year_range : Z * Z
}.

(** The two scripts differ in the column the region filter and the region
    chart read. *)
Inductive Script : Type := code_py | covid_py.

Definition region_column (s : Script) : Row -> option string :=
  match s with
  | code_py => Who_region_pretty
  | covid_py => Who_region
  end.

(** Python truthiness of a list. *)
Definition truthy {A : Type} (l : list A) : bool :=
  match l with [] => false | _ :: _ => true end.

(** The five mask steps that build [filtered], in script order. *)
Definition filtered (s : Script) (df : DataFrame) (f : FilterSpec) : DataFrame :=
  let filtered := df in
  let filtered :=
    if negb (String.eqb (region_selected f) "All regions")
    then filter (fun r => eq_label (region_column s r) (region_selected f)) filtered
    else filtered in
  let filtered :=
    if negb (String.eqb (income_selected f) "All income levels")
    then filter (fun r => eq_label (Wb_income r) (income_selected f)) filtered
    else filtered in
  let filtered :=
    if truthy (countries_selected f)
    then filter (fun r => isin (Country r) (countries_selected f)) filtered
    else filtered in
  let filtered :=
    if truthy (agegroups_selected f)
    then filter (fun r => isin_str (Agegroup_pretty r) (agegroups_selected f)) filtered
    else filtered in
  filter (fun r => (fst (year_range f) <=? Year r) && (Year r <=? snd (year_range f)))
         filtered.

(** [filtered.empty] *)
Definition empty (df : DataFrame) : bool := negb (truthy df).

(** ** The sidebar's option lists and defaults *)

(** [Series.unique()]: distinct values in order of first appearance. *)
Fixpoint unique (l : list string) : list string :=
  match l with
  | [] => []
  | x :: l' => x :: filter (fun y => negb (String.eqb y x)) (unique l')
  end.

(** Insertion of [x] before the first element it is [leb]-below: the sort
    built from it is stable. *)
Fixpoint insert_by {A : Type} (leb : A -> A -> bool) (x : A) (l : list A) : list A :=
  match l with
  | [] => [x]
  | y :: l' => if leb x y then x :: l else y :: insert_by leb x l'
  end.

(** [sorted(...)] and [sort_values(...)].  pandas does not fix the order of
    rows with equal sort keys; nothing below depends on it. *)
Definition sort_values {A : Type} (leb : A -> A -> bool) (l : list A) : list A :=
  fold_right (insert_by leb) [] l.

Definition agegroups_all (df : DataFrame) : list string :=
  sort_values String.leb (unique (map Agegroup_pretty df)).

(** [int(col.min())] and [int(col.max())]: undefined on an empty column. *)
Definition col_min (l : list Z) : option Z :=
  match l with [] => None | x :: l' => Some (fold_left Z.min l' x) end.

Definition col_max (l : list Z) : option Z :=
  match l with [] => None | x :: l' => Some (fold_left Z.max l' x) end.

Definition year_min (df : DataFrame) : option Z := col_min (map Year df).
Definition year_max (df : DataFrame) : option Z := col_max (map Year df).

(** The selection the sidebar holds before the user touches a control:
    both select boxes on their first entry, no country, every age label,
    the slider on the full span of years.  There is none when the sidebar
    raises: [int] of a NaN bound on an empty dataset, and [st.slider] when
    its two bounds are the same year. *)
Definition default_spec (df : DataFrame) : option FilterSpec :=
  match year_min df, year_max df with
  | Some lo, Some hi =>
      if lo <? hi
      then Some {| region_selected := "All regions";
                   income_selected := "All income levels";
                   countries_selected := [];
                   agegroups_selected := agegroups_all df;
                   year_range := (lo, hi) |}
      else None
  | _, _ => None
  end.

(** ** Aggregation *)

(** [Series.sum()] on int64. *)
Definition col_sum (l : list Z) : Z := fold_right add64 0 l.

(** One step of a group-by/sum: add [v] to the group of key [k] in a frame
    kept in key order, opening the group at 0 when it is new. *)
Fixpoint add_group {K : Type} (cmp : K -> K -> comparison)
         (k : K) (v : Z) (g : list (K * Z)) : list (K * Z) :=
  match g with
  | [] => [(k, add64 0 v)]
  | (k', v') :: g' =>
      match cmp k k' with
      | Lt => (k, add64 0 v) :: g
      | Eq => (k', add64 v' v) :: g'
      | Gt => (k', v') :: add_group cmp k v g'
      end
  end.

(** [df.groupby(key)["Deaths"].sum()]: one row per distinct non-null key,
    in key order, holding the sum of [Deaths] of the rows with that key. *)
Definition groupby_sum {K : Type} (cmp : K -> K -> comparison)
           (key : Row -> option K) (df : DataFrame) : list (K * Z) :=
  fold_left
    (fun g r => match key r with
                | Some k => add_group cmp k (Deaths r) g
                | None => g
                end)
    df [].

(** Order on two-column keys: first column, then second. *)
Definition pair_compare {A B : Type} (ca : A -> A -> comparison)
           (cb : B -> B -> comparison) (x y : A * B) : comparison :=
  match ca (fst x) (fst y) with
  | Eq => cb (snd x) (snd y)
  | c => c
  end.

(** *** KPI metrics *)

Definition total_deaths (fv : DataFrame) : Z := col_sum (map Deaths fv).

(** One step of a running maximum over the [Date] column; NaT cells are
    skipped. *)
Definition later (m : option Timestamp) (r : Row) : option Timestamp :=
  match Date r, m with
  | Some d, Some m' => Some (if ts_leb m' d then d else m')
  | Some d, None => Some d
  | None, _ => m
  end.

(** [filtered["Date"].max()]: the latest non-null date, NaT if there is none. *)
Definition max_date (fv : DataFrame) : option Timestamp :=
  fold_left later fv None.

(** NaT minus an offset stays NaT. *)
Definition last_12_months_start (fv : DataFrame) : option Timestamp :=
  option_map minus_12_months (max_date fv).

(** [col >= start]: false as soon as either side is NaT. *)
Definition ge_date (d start : option Timestamp) : bool :=
  match d, start with
  | Some d', Some s => ts_leb s d'
  | _, _ => false
  end.

Definition recent (fv : DataFrame) : DataFrame :=
  filter (fun r => ge_date (Date r) (last_12_months_start fv)) fv.

Definition recent_deaths (fv : DataFrame) : Z := col_sum (map Deaths (recent fv)).

(** *** Time series *)

Definition ts_key (r : Row) : option (Timestamp * string) :=
  match Date r with
  | Some d => Some (d, Agegroup_pretty r)
  | None => None
  end.

Definition ts (fv : DataFrame) : list ((Timestamp * string) * Z) :=
  sort_values (fun a b => ts_leb (fst (fst a)) (fst (fst b)))
              (groupby_sum (pair_compare ts_compare String.compare) ts_key fv).

(** *** Year x age heatmap *)

Definition heat_key (r : Row) : option (Z * string) :=
  Some (Year r, Agegroup_pretty r).

Definition heat (fv : DataFrame) : list ((Z * string) * Z) :=
  groupby_sum (pair_compare Z.compare String.compare) heat_key fv.

(** *** Country totals *)

(** Only [code.py] draws the map.  The grouped frame keeps [Country] as an
    ordinary, nullable column ([as_index=False]); the two clean-up steps
    then act on it. *)
Definition map_data (fv : DataFrame) : list (option string * Z) :=
  let map_data :=
    map (fun g => (Some (fst g), snd g)) (groupby_sum String.compare Country fv) in
  let map_data := filter (fun g => notna (fst g)) map_data in
  filter (fun g => ne_label (fst g) "Unknown") map_data.

(** *** Region totals *)

Definition region_deaths (s : Script) (fv : DataFrame) : list (string * Z) :=
  sort_values (fun a b => snd b <=? snd a)
              (groupby_sum String.compare (region_column s) fv).

(** ** The emptiness check *)

(** [st.error(...); st.stop()] ends the run before any KPI or chart is
    computed; otherwise the script goes on with the non-empty [filtered],
    which every reducer above then reads. *)
Inductive Outcome : Type :=
| Stopped (message : string)
| Continued (fv : DataFrame).

Definition no_data_message : string :=
  "No data for the current filter selection. Try widening your filters.".

Definition run (s : Script) (df : DataFrame) (f : FilterSpec) : Outcome :=
  let fv := filtered s df f in
  if empty fv then Stopped no_data_message else Continued fv.

(** ** Reading sums and grouped frames *)

(** Two whole numbers that an int64 cell cannot tell apart. *)
Definition cong64 (a b : Z) : Prop := exists k, a = b + k * 2 ^ 64.

(** The total held by the rows of a grouped frame whose key is [k]. *)
Definition group_total {K : Type} (eqb : K -> K -> bool) (k : K)
           (g : list (K * Z)) : Z :=
  col_sum (map snd (filter (fun e => eqb (fst e) k) g)).

Definition opt_eqb {A : Type} (eqb : A -> A -> bool) (x y : option A) : bool :=
  match x, y with
  | Some a, Some b => eqb a b
  | None, None => true
  | _, _ => false
  end.

Definition pair_eqb {A B : Type} (ea : A -> A -> bool) (eb : B -> B -> bool)
           (x y : A * B) : bool :=
  ea (fst x) (fst y) && eb (snd x) (snd y).

(** ** The filter as the specification words it *)

(** Each predicate is a no-op at its sentinel. *)
Definition region_ok (s : Script) (f : FilterSpec) (r : Row) : bool :=
  String.eqb (region_selected f) "All regions"
  || eq_label (region_column s r) (region_selected f).

Definition income_ok (f : FilterSpec) (r : Row) : bool :=
  String.eqb (income_selected f) "All income levels"
  || eq_label (Wb_income r) (income_selected f).

Definition countries_ok (f : FilterSpec) (r : Row) : bool :=
  negb (truthy (countries_selected f)) || isin (Country r) (countries_selected f).

Definition year_ok (f : FilterSpec) (r : Row) : bool :=
  (fst (year_range f) <=? Year r) && (Year r <=? snd (year_range f)).

(** Age-group membership with no sentinel: an empty set admits no row. *)
Definition agegroups_member (f : FilterSpec) (r : Row) : bool :=
  isin_str (Agegroup_pretty r) (agegroups_selected f).

(** Age-group membership that an empty set switches off. *)
Definition agegroups_ok (f : FilterSpec) (r : Row) : bool :=
  negb (truthy (agegroups_selected f)) || agegroups_member f r.

(** The conjunction with age-group membership always active. *)
Definition spec_predicates (s : Script) (f : FilterSpec) (r : Row) : bool :=
  region_ok s f r && income_ok f r && countries_ok f r
  && agegroups_member f r && year_ok f r.

(** The conjunction with every predicate, age groups too, off at its
    sentinel. *)
Definition active_predicates (s : Script) (f : FilterSpec) (r : Row) : bool :=
  region_ok s f r && income_ok f r && countries_ok f r
  && agegroups_ok f r && year_ok f r.

(** The four predicates other than age group. *)
Definition other_predicates (s : Script) (f : FilterSpec) (r : Row) : bool :=
  region_ok s f r && income_ok f r && countries_ok f r && year_ok f r.

(** Every control on a value that lets every row of the dataset through:
    the two sentinels, no country, an age selection that holds every age
    label of the dataset, a year range that spans every year of it. *)
Definition maximally_unrestricted (df : DataFrame) (f : FilterSpec) : Prop :=
  region_selected f = "All regions"%string
  /\ income_selected f = "All income levels"%string
  /\ countries_selected f = []
  /\ (forall r, In r df -> In (Agegroup_pretty r) (agegroups_selected f))
  /\ (forall r, In r df -> fst (year_range f) <= Year r <= snd (year_range f)).

(** ** The recent window as the specification words it *)

(** [m] is the maximum date present in the view. *)
Definition is_max_date (fv : DataFrame) (m : Timestamp) : Prop :=
  (exists r, In r fv /\ Date r = Some m) /\
  (forall r d, In r fv -> Date r = Some d -> ts_leb d m = true).

(** The row is dated, and not earlier than [m] minus 12 months. *)
Definition in_last_12_months (m : Timestamp) (r : Row) : bool :=
  match Date r with
  | Some d => ts_leb (minus_12_months m) d
  | None => false
  end.

(** ** The sidebar's other option lists *)

(** [col.dropna()] *)
Fixpoint dropna {A : Type} (l : list (option A)) : list A :=
  match l with
  | [] => []
  | Some x :: l' => x :: dropna l'
  | None :: l' => dropna l'
  end.

(** [sorted(col.dropna().unique().tolist())] *)
Definition sorted_labels (col : Row -> option string) (df : DataFrame) : list string :=
  sort_values String.leb (unique (dropna (map col df))).

Definition regions (s : Script) (df : DataFrame) : list string :=
  "All regions"%string :: sorted_labels (region_column s) df.

Definition income_levels (df : DataFrame) : list string :=
  "All income levels"%string :: sorted_labels Wb_income df.

Definition countries_all (df : DataFrame) : list string :=
  sorted_labels Country df.

(** One control moved, the others left as they are. *)
Definition pick_region (f : FilterSpec) (region : string) : FilterSpec :=
  {| region_selected := region;
     income_selected := income_selected f;
     countries_selected := countries_selected f;
     agegroups_selected := agegroups_selected f;
     year_range := year_range f |}.

Definition pick_income (f : FilterSpec) (income : string) : FilterSpec :=
  {| region_selected := region_selected f;
     income_selected := income;
     countries_selected := countries_selected f;
     agegroups_selected := agegroups_selected f;
     year_range := year_range f |}.

Definition pick_countries (f : FilterSpec) (countries : list string) : FilterSpec :=
  {| region_selected := region_selected f;
     income_selected := income_selected f;
     countries_selected := countries;
     agegroups_selected := agegroups_selected f;
     year_range := year_range f |}.

(** ** The remaining reducers *)

(** *** Most affected age group *)

Definition age_key (r : Row) : option string := Some (Agegroup_pretty r).

Definition age_summary (fv : DataFrame) : list (string * Z) :=
  sort_values (fun a b => snd b <=? snd a)
              (groupby_sum String.compare age_key fv).

(** [age_summary.index[0]] and [age_summary.iloc[0]]: position 0 of an
    empty series is an IndexError, here [None]. *)
Definition top_agegroup (fv : DataFrame) : option string :=
  option_map fst (hd_error (age_summary fv)).

Definition top_age_deaths (fv : DataFrame) : option Z :=
  option_map snd (hd_error (age_summary fv)).

(** *** The KPI block *)

Inductive Exn : Type := IndexError.

Record KPIs : Type := mkKPIs {
  kpi_total_deaths : Z;
  kpi_recent_deaths : Z;
  kpi_top_agegroup : string;
  kpi_top_age_deaths : Z
}.

(** The statements from [total_deaths = ...] to the three [metric] calls,
    on any frame: position 0 of an empty age summary raises. *)
Definition kpi_block (fv : DataFrame) : Exn + KPIs :=
  match top_agegroup fv, top_age_deaths fv with
  | Some a, Some v =>
      inr {| kpi_total_deaths := total_deaths fv;
             kpi_recent_deaths := recent_deaths fv;
             kpi_top_agegroup := a;
             kpi_top_age_deaths := v |}
  | _, _ => inl IndexError
  end.

(** How a run stands once the KPI row is on the page. *)
Inductive Result : Type :=
| Raise (e : Exn)
| Stop (message : string)
| Shown (k : KPIs).

(** The script from the first mask step to the KPI row: the emptiness
    check comes first, and [st.stop()] ends the run there. *)
Definition script_to_kpis (s : Script) (df : DataFrame) (f : FilterSpec) : Result :=
  match run s df f with
  | Stopped message => Stop message
  | Continued fv =>
      match kpi_block fv with
      | inl e => Raise e
      | inr k => Shown k
      end
  end.

(** *** Statistics of the time series ([code.py]) *)

Definition value_count (l : list Z) (x : Z) : nat := count_occ Z.eq_dec l x.

(** [Series.mode()]: the most frequent values, in ascending order; empty
    for an empty series. *)
Definition mode_values (l : list Z) : list Z :=
  let top := fold_right Nat.max 0%nat (map (value_count l) l) in
  sort_values Z.leb
    (nodup Z.eq_dec (filter (fun x => Nat.eqb (value_count l x) top) l)).

(** [mode_values.iloc[0] if not mode_values.empty else None] *)
Definition mode_deaths (fv : DataFrame) : option Z :=
  hd_error (mode_values (map snd (ts fv))).

(** [Series.median()]: the middle value of the sorted series, the mean of
    the two middle values when their number is even, NaN (here [None]) for
    an empty series. *)
Definition median (l : list Z) : option Q :=
  let sorted := sort_values Z.leb l in
  let n := List.length sorted in
  match n with
  | O => None
  | _ =>
      if Nat.even n
      then Some (Qmake (nth (n / 2 - 1) sorted 0 + nth (n / 2) sorted 0) 2)
      else Some (inject_Z (nth (n / 2) sorted 0))
  end.

Definition median_deaths (fv : DataFrame) : option Q := median (map snd (ts fv)).

(** Equality of two timestamps. *)
Definition ts_eqb (a b : Timestamp) : bool :=
  (ts_year a =? ts_year b) && (ts_month a =? ts_month b).

(** The row is dated [d] and labelled [a]. *)
Definition in_ts_group (d : Timestamp) (a : string) (r : Row) : bool :=
  opt_eqb ts_eqb (Date r) (Some d) && String.eqb (Agegroup_pretty r) a.

(** *** The heatmap grid *)

Fixpoint duplicated {A : Type} (eqb : A -> A -> bool) (l : list A) : bool :=
  match l with
  | [] => false
  | x :: l' => existsb (eqb x) l' || duplicated eqb l'
  end.

(** Distinct values in order of first appearance, for any column type. *)
Fixpoint unique_by {A : Type} (eqb : A -> A -> bool) (l : list A) : list A :=
  match l with
  | [] => []
  | x :: l' => x :: filter (fun y => negb (eqb y x)) (unique_by eqb l')
  end.

(** The value of the long-format row with the given labels, if any. *)
Fixpoint cell_lookup (h : list ((Z * string) * Z)) (a : string) (y : Z) : option Z :=
  match h with
  | [] => None
  | ((y', a'), v) :: h' =>
      if (y' =? y) && String.eqb a' a then Some v else cell_lookup h' a y
  end.

Record PivotTable : Type := mkPivotTable {
  pivot_index : list string;
  pivot_columns : list Z;
  pivot_values : list (list (option Z))
}.

(** [heat.pivot(index="Agegroup_pretty", columns="Year", values="Deaths")]:
    one grid row per age label and one grid column per year, both in
    ascending order, NaN where the long frame has no row; a repeated
    (label, year) pair is a ValueError, here [None]. *)
Definition pivot (h : list ((Z * string) * Z)) : option PivotTable :=
  if duplicated (pair_eqb Z.eqb String.eqb) (map fst h) then None
  else
    let index := sort_values String.leb (unique (map (fun e => snd (fst e)) h)) in
    let columns := sort_values Z.leb (unique_by Z.eqb (map (fun e => fst (fst e)) h)) in
    Some {| pivot_index := index;
            pivot_columns := columns;
            pivot_values :=
              map (fun a => map (fun y => cell_lookup h a y) columns) index |}.

(** The deaths of an age label in a year, when the view has such rows. *)
Definition heat_cell (fv : DataFrame) (a : string) (y : Z) : option Z :=
  let rows := filter (fun r => (Year r =? y) && String.eqb (Agegroup_pretty r) a) fv in
  if empty rows then None else Some (total_deaths rows).

(** *** Counters above the map ([code.py]) *)

(** [filtered["Country"].nunique()]: distinct non-null countries. *)
Definition nunique_countries (fv : DataFrame) : nat :=
  List.length (unique (dropna (map Country fv))).

(** [map_data.empty]: the warning replaces the map. *)
Definition map_warning (fv : DataFrame) : bool :=
  match map_data fv with [] => true | _ :: _ => false end.

(** *** The raw table *)

Record RawRow : Type := mkRawRow {
  raw_Country : option string;
  raw_region : option string;
  raw_Wb_income : option string;
  raw_Year : Z;
  raw_Month : Z;
  raw_Agegroup_pretty : string;
  raw_Deaths : Z
}.

(** The seven columns shown; the region column is the one the script
    filters on. *)
Definition raw_columns (s : Script) (r : Row) : RawRow :=
  {| raw_Country := Country r;
     raw_region := region_column s r;
     raw_Wb_income := Wb_income r;
     raw_Year := Year r;
     raw_Month := Month r;
     raw_Agegroup_pretty := Agegroup_pretty r;
     raw_Deaths := Deaths r |}.

Definition year_month_leb (a b : RawRow) : bool :=
  (raw_Year a <? raw_Year b)
  || ((raw_Year a =? raw_Year b) && (raw_Month a <=? raw_Month b)).

(** [filtered[[...]].sort_values(["Year", "Month"])] *)
Definition raw_table (s : Script) (fv : DataFrame) : list RawRow :=
  sort_values year_month_leb (map (raw_columns s) fv).

(** ** Sample data *)

Definition csv (country region income : string) (year month : Z)
           (age : string) (deaths : Z) : CsvRow :=
  mkCsvRow (Some country) (Some region) (Some income) year month age (Some deaths).

(** The three-row dataset of the specification's worked example. *)
Definition spec_example_csv : list CsvRow :=
  [ csv "US" "AMR" "High" 2021 1 "65+" 100;
    csv "US" "AMR" "High" 2021 2 "65+" 50;
    csv "FR" "EUR" "High" 2021 1 "65+" 0 ].

Definition spec_example_df : DataFrame := loaded spec_example_csv.

(** A three-line file over two years and two age groups. *)
Definition sample_csv : list CsvRow :=
  [ csv "US" "AMR" "High" 2020 12 "65+" 100;
    csv "US" "AMR" "High" 2021 1 "65+" 50;
    csv "FR" "EUR" "High" 2021 1 "15_64" 0 ].

Definition sample_df : DataFrame := loaded sample_csv.

(** Every control on its default for the sample. *)
Definition sample_spec : FilterSpec :=
  mkFilterSpec "All regions" "All income levels" []
               ["15–64"%string; "65+"%string] (2020, 2021).

(** The age-group multiselect cleared, every other control on its default. *)
Definition spec_no_agegroups : FilterSpec :=
  mkFilterSpec "All regions" "All income levels" [] [] (2020, 2021).

(** One region picked in [code.py], every other control on its default. *)
Definition spec_americas : FilterSpec :=
  mkFilterSpec "Region of the Americas" "All income levels" []
               ["15–64"%string; "65+"%string] (2020, 2021).

(** The sample with a fourth line whose month is 13. *)
Definition month13_csv : list CsvRow :=
  sample_csv ++ [ csv "US" "AMR" "High" 2021 13 "65+" 7 ].

Definition month13_df : DataFrame := loaded month13_csv.

(** The sample with a fourth line that has no region. *)
Definition noregion_csv : list CsvRow :=
  sample_csv ++ [ mkCsvRow (Some "XK"%string) None (Some "High"%string)
                           2021 1 "65+" (Some 5) ].

Definition noregion_df : DataFrame := loaded noregion_csv.

(** Two years of data, to watch the recent window move with the filter. *)
Definition two_year_csv : list CsvRow :=
  [ csv "US" "AMR" "High" 2020 1 "65+" 10;
    csv "US" "AMR" "High" 2021 1 "65+" 20;
    csv "US" "AMR" "High" 2022 6 "65+" 40 ].

Definition two_year_df : DataFrame := loaded two_year_csv.

Definition spec_2020_2021 : FilterSpec :=
  mkFilterSpec "All regions" "All income levels" [] ["65+"%string] (2020, 2021).

Definition spec_2020_2022 : FilterSpec :=
  mkFilterSpec "All regions" "All income levels" [] ["65+"%string] (2020, 2022).

(** Two counts of 2^62 each, thirty months apart: each fits an int64 cell,
    their sum does not. *)
Definition big_csv : list CsvRow :=
  [ csv "US" "AMR" "High" 2020 1 "65+" 4611686018427387904;
    csv "US" "AMR" "High" 2022 6 "65+" 4611686018427387904 ].

Definition big_df : DataFrame := loaded big_csv.

(** The year slider narrowed to 2020 on [big_df]. *)
Definition spec_2020 : FilterSpec :=
  mkFilterSpec "All regions" "All income levels" [] ["65+"%string] (2020, 2020).

(** A file whose first line has month -1, followed by an ordinary line. *)
Definition dash_first_csv : list CsvRow :=
  [ csv "US" "AMR" "High" 2021 (-1) "65+" 7;
    csv "US" "AMR" "High" 2021 2 "65+" 50 ].

(** * Properties *)

(** ** The samples *)

(** The samples are files the model follows. *)
Example samples_loaded :
  load_data spec_example_csv = Some spec_example_df
  /\ load_data sample_csv = Some sample_df
  /\ load_data month13_csv = Some month13_df
  /\ load_data noregion_csv = Some noregion_df
  /\ load_data two_year_csv = Some two_year_df
  /\ load_data big_csv = Some big_df.
Proof. repeat split; reflexivity. Qed.

(** The worked example of the specification, run through the reducers. *)
Example spec_example_totals :
  let fv := spec_example_df in
  total_deaths fv = 150
  /\ map_data fv = [(Some "FR"%string, 0); (Some "US"%string, 150)]
  /\ region_deaths covid_py fv = [("AMR"%string, 150); ("EUR"%string, 0)].
Proof. repeat split; reflexivity. Qed.

Example sample_default : default_spec sample_df = Some sample_spec.
Proof. reflexivity. Qed.

(** ** Boolean masks *)

Section Masks.
Context {A : Type}.

Lemma mask_twice (p q : A -> bool) (l : list A) :
  filter q (filter p l) = filter (fun x => p x && q x) l.
Proof.
  induction l as [|x l IH]; simpl; [reflexivity|].
  destruct (p x); simpl; [destruct (q x)|]; rewrite IH; reflexivity.
Qed.

(** A guarded mask step is a single mask that the guard can switch off. *)
Lemma guarded_mask (b : bool) (p : A -> bool) (l : list A) :
  (if b then filter p l else l) = filter (fun x => negb b || p x) l.
Proof.
  destruct b; simpl; [reflexivity|].
  induction l as [|x l IH]; simpl; congruence.
Qed.

Lemma mask_all (p : A -> bool) (l : list A) :
  (forall x, In x l -> p x = true) -> filter p l = l.
Proof.
  induction l as [|x l IH]; simpl; intros H; [reflexivity|].
  rewrite (H x) by auto. f_equal. apply IH. auto.
Qed.


End Masks.

(** The five steps of [filtered] amount to one mask. *)
Lemma filtered_one_mask (s : Script) (df : DataFrame) (f : FilterSpec) :
  filtered s df f = filter (active_predicates s f) df.
Proof.
  unfold filtered.
  rewrite !guarded_mask, !mask_twice.
  apply filter_ext. intros r.
  unfold active_predicates, region_ok, income_ok, countries_ok, agegroups_ok,
    agegroups_member, year_ok.
  rewrite !negb_involutive, !andb_assoc. reflexivity.
Qed.

Lemma filtered_In (s : Script) (df : DataFrame) (f : FilterSpec) (r : Row) :
  In r (filtered s df f) <-> In r df /\ active_predicates s f r = true.
Proof. rewrite filtered_one_mask. apply filter_In. Qed.

(** ** 64-bit sums *)

Lemma wrap64_range (z : Z) : - 2 ^ 63 <= wrap64 z < 2 ^ 63.
Proof.
  unfold wrap64.
  pose proof (Z.mod_pos_bound (z + 2 ^ 63) (2 ^ 64) eq_refl). lia.
Qed.

Lemma wrap64_cong (z : Z) : cong64 (wrap64 z) z.
Proof.
  unfold cong64, wrap64. exists (- ((z + 2 ^ 63) / 2 ^ 64)).
  pose proof (Z.div_mod (z + 2 ^ 63) (2 ^ 64)). lia.
Qed.

Lemma cong64_refl (a : Z) : cong64 a a.
Proof. exists 0. lia. Qed.

Lemma cong64_sym (a b : Z) : cong64 a b -> cong64 b a.
Proof. intros [k H]. exists (- k). lia. Qed.

Lemma cong64_trans (a b c : Z) : cong64 a b -> cong64 b c -> cong64 a c.
Proof. intros [k H] [j J]. exists (k + j). lia. Qed.

Lemma cong64_add (a b c d : Z) : cong64 a b -> cong64 c d -> cong64 (a + c) (b + d).
Proof. intros [k H] [j J]. exists (k + j). lia. Qed.

(** Two congruent numbers inside the 64-bit range are the same number. *)
Lemma cong64_in_range (a b : Z) :
  cong64 a b -> - 2 ^ 63 <= a < 2 ^ 63 -> - 2 ^ 63 <= b < 2 ^ 63 -> a = b.
Proof. intros [k H] Ha Hb. lia. Qed.

Lemma wrap64_of_cong (a b : Z) : cong64 a b -> wrap64 a = wrap64 b.
Proof.
  intros H. apply cong64_in_range; try apply wrap64_range.
  eapply cong64_trans; [apply wrap64_cong|].
  eapply cong64_trans; [exact H | apply cong64_sym, wrap64_cong].
Qed.

Lemma wrap64_small (z : Z) : - 2 ^ 63 <= z < 2 ^ 63 -> wrap64 z = z.
Proof.
  intros H. apply cong64_in_range; [apply wrap64_cong | apply wrap64_range | exact H].
Qed.

Lemma add64_cong (a b : Z) : cong64 (add64 a b) (a + b).
Proof. apply wrap64_cong. Qed.

Lemma add64_range (a b : Z) : - 2 ^ 63 <= add64 a b < 2 ^ 63.
Proof. apply wrap64_range. Qed.

Lemma col_sum_cong (l : list Z) : cong64 (col_sum l) (exact_sum l).
Proof.
  induction l as [|x l IH]; simpl; [apply cong64_refl|].
  eapply cong64_trans; [apply add64_cong|].
  apply cong64_add; [apply cong64_refl | exact IH].
Qed.

Lemma col_sum_range (l : list Z) : - 2 ^ 63 <= col_sum l < 2 ^ 63.
Proof. destruct l; simpl; [lia | apply add64_range]. Qed.

(** A 64-bit sum is the whole-number sum, wrapped once. *)
Lemma col_sum_exact (l : list Z) : col_sum l = wrap64 (exact_sum l).
Proof.
  apply cong64_in_range; [|apply col_sum_range | apply wrap64_range].
  eapply cong64_trans; [apply col_sum_cong | apply cong64_sym, wrap64_cong].
Qed.

Lemma col_sum_of_cong (l1 l2 : list Z) :
  cong64 (exact_sum l1) (exact_sum l2) -> col_sum l1 = col_sum l2.
Proof. intros H. rewrite !col_sum_exact. apply wrap64_of_cong, H. Qed.


Lemma exact_sum_perm (l1 l2 : list Z) :
  Permutation l1 l2 -> exact_sum l1 = exact_sum l2.
Proof. induction 1; simpl; lia. Qed.

Lemma col_sum_perm (l1 l2 : list Z) : Permutation l1 l2 -> col_sum l1 = col_sum l2.
Proof. intros H. rewrite !col_sum_exact, (exact_sum_perm _ _ H). reflexivity. Qed.

Lemma total_deaths_exact (fv : DataFrame) :
  total_deaths fv = wrap64 (exact_sum (map Deaths fv)).
Proof. apply col_sum_exact. Qed.

Lemma total_deaths_cons (r : Row) (fv : DataFrame) :
  total_deaths (r :: fv) = add64 (Deaths r) (total_deaths fv).
Proof. reflexivity. Qed.

Lemma exact_sum_mask_bounds (p : Row -> bool) (fv : DataFrame) :
  Forall (fun r => 0 <= Deaths r) fv ->
  0 <= exact_sum (map Deaths (filter p fv)) <= exact_sum (map Deaths fv).
Proof.
  induction 1 as [|r fv Hr _ IH]; simpl; [lia|].
  destruct (p r); simpl; lia.
Qed.

(** Masking a frame of non-negative counts cannot raise the total, as long
    as the counts of the frame add up inside the 64-bit range. *)
Lemma total_deaths_mask_le (p : Row -> bool) (fv : DataFrame) :
  Forall (fun r => 0 <= Deaths r) fv ->
  exact_sum (map Deaths fv) < 2 ^ 63 ->
  total_deaths (filter p fv) <= total_deaths fv.
Proof.
  intros Hpos Hsum.
  pose proof (exact_sum_mask_bounds p fv Hpos) as Hp.
  rewrite !total_deaths_exact, !wrap64_small; lia.
Qed.

(** ** Sorting *)

Section Sorting.
Context {A : Type} (leb : A -> A -> bool).

Lemma insert_by_perm (x : A) (l : list A) : Permutation (insert_by leb x l) (x :: l).
Proof.
  induction l as [|y l IH]; simpl; [reflexivity|].
  destruct (leb x y); [reflexivity|].
  rewrite IH. apply perm_swap.
Qed.

(** Sorting only reorders the rows. *)
Lemma sort_values_perm (l : list A) : Permutation (sort_values leb l) l.
Proof.
  induction l as [|x l IH]; simpl; [reflexivity|].
  rewrite insert_by_perm. now constructor.
Qed.

Lemma sort_values_col_sum (w : A -> Z) (l : list A) :
  col_sum (map w (sort_values leb l)) = col_sum (map w l).
Proof. apply col_sum_perm, Permutation_map, sort_values_perm. Qed.

Lemma sort_values_In (x : A) (l : list A) : In x (sort_values leb l) <-> In x l.
Proof.
  split; apply Permutation_in;
    [apply sort_values_perm | apply Permutation_sym, sort_values_perm].
Qed.
End Sorting.

(** ** Group-by *)

Section GroupBy.
Context {K : Type} (cmp : K -> K -> comparison).
Hypothesis cmp_eq : forall x y, cmp x y = Eq -> x = y.

Variable key : Row -> option K.

Let step (g : list (K * Z)) (r : Row) : list (K * Z) :=
  match key r with
  | Some k => add_group cmp k (Deaths r) g
  | None => g
  end.

Lemma add_group_exact (k : K) (v : Z) (g : list (K * Z)) :
  cong64 (exact_sum (map snd (add_group cmp k v g))) (exact_sum (map snd g) + v).
Proof.
  induction g as [|[k' v'] g IH]; simpl.
  - destruct (add64_cong 0 v) as [j J]. exists j. lia.
  - destruct (cmp k k'); simpl.
    + destruct (add64_cong v' v) as [j J]. exists j. lia.
    + destruct (add64_cong 0 v) as [j J]. exists j. lia.
    + destruct IH as [j J]. exists j. lia.
Qed.

Lemma groupby_fold_exact (df : DataFrame) (g : list (K * Z)) :
  cong64 (exact_sum (map snd (fold_left step df g)))
         (exact_sum (map snd g)
          + exact_sum (map Deaths (filter (fun r => notna (key r)) df))).
Proof.
  revert g. induction df as [|r df IH]; intros g; simpl.
  - exists 0. lia.
  - eapply cong64_trans; [apply IH|]. unfold step.
    destruct (key r); simpl.
    + destruct (add_group_exact k (Deaths r) g) as [j J]. exists j. lia.
    + exists 0. lia.
Qed.

(** The group sums add up to the total over the rows whose key is set. *)
Lemma groupby_sum_col_sum (df : DataFrame) :
  col_sum (map snd (groupby_sum cmp key df))
  = total_deaths (filter (fun r => notna (key r)) df).
Proof.
  unfold groupby_sum, total_deaths. apply col_sum_of_cong.
  apply (groupby_fold_exact df []).
Qed.

Lemma add_group_in_range (k : K) (v : Z) (g : list (K * Z)) :
  Forall (fun e => - 2 ^ 63 <= snd e < 2 ^ 63) g ->
  Forall (fun e => - 2 ^ 63 <= snd e < 2 ^ 63) (add_group cmp k v g).
Proof.
  induction 1 as [|[k' v'] g Hv Hg IH]; simpl.
  - constructor; [apply add64_range | constructor].
  - destruct (cmp k k').
    + constructor; [apply add64_range | exact Hg].
    + constructor; [apply add64_range | constructor; assumption].
    + constructor; assumption.
Qed.

(** Every group sum is a value of an int64 cell. *)
Lemma groupby_sum_in_range (df : DataFrame) :
  Forall (fun e => - 2 ^ 63 <= snd e < 2 ^ 63) (groupby_sum cmp key df).
Proof.
  unfold groupby_sum.
  assert (H : Forall (fun e : K * Z => - 2 ^ 63 <= snd e < 2 ^ 63) []) by constructor.
  revert H. generalize (@nil (K * Z)).
  induction df as [|r df IH]; intros g Hg; simpl; [exact Hg|].
  apply IH. destruct (key r); [apply add_group_in_range|]; exact Hg.
Qed.

Lemma add_group_keys (k0 k : K) (v : Z) (g : list (K * Z)) :
  In k0 (map fst (add_group cmp k v g)) <-> k0 = k \/ In k0 (map fst g).
Proof.
  induction g as [|[k' v'] g IH]; simpl.
  - intuition.
  - destruct (cmp k k') eqn:Hc; simpl.
    + apply cmp_eq in Hc. subst k'. intuition.
    + intuition.
    + rewrite IH. intuition.
Qed.

Lemma groupby_fold_keys (k0 : K) (df : DataFrame) (g : list (K * Z)) :
  In k0 (map fst (fold_left step df g))
  <-> In k0 (map fst g) \/ exists r, In r df /\ key r = Some k0.
Proof.
  revert g. induction df as [|r df IH]; intros g; simpl.
  - split; [auto | intros [H | [r [[] _]]]; exact H].
  - rewrite IH. unfold step.
    destruct (key r) as [k|] eqn:Hk.
    + rewrite add_group_keys. split.
      * intros [[-> | H] | [r' [H1 H2]]]; eauto 6.
      * intros [H | [r' [[-> | H1] H2]]]; eauto 6.
        left. left. congruence.
    + split.
      * intros [H | [r' [H1 H2]]]; eauto 6.
      * intros [H | [r' [[-> | H1] H2]]]; eauto 6. congruence.
Qed.

(** The grouped frame has a row for a key exactly when some row of the
    frame carries that key. *)
Lemma groupby_sum_keys (k0 : K) (df : DataFrame) :
  In k0 (map fst (groupby_sum cmp key df))
  <-> exists r, In r df /\ key r = Some k0.
Proof.
  unfold groupby_sum.
  etransitivity; [apply (groupby_fold_keys k0 df [])|].
  simpl. intuition.
Qed.
End GroupBy.

(** ** Reading a group *)

Section GroupTotal.
Context {K : Type} (cmp : K -> K -> comparison) (eqb : K -> K -> bool).
Hypothesis cmp_eq : forall x y, cmp x y = Eq -> x = y.

Variable key : Row -> option K.

Let step (g : list (K * Z)) (r : Row) : list (K * Z) :=
  match key r with
  | Some k => add_group cmp k (Deaths r) g
  | None => g
  end.

(** The whole-number total of the rows of a grouped frame with key [k0]. *)
Let exact_total (k0 : K) (g : list (K * Z)) : Z :=
  exact_sum (map snd (filter (fun e => eqb (fst e) k0) g)).

Lemma group_total_exact (k0 : K) (g : list (K * Z)) :
  group_total eqb k0 g = wrap64 (exact_total k0 g).
Proof. apply col_sum_exact. Qed.

Lemma exact_total_cons (k0 k : K) (v : Z) (g : list (K * Z)) :
  exact_total k0 ((k, v) :: g) = (if eqb k k0 then v else 0) + exact_total k0 g.
Proof. unfold exact_total. simpl. destruct (eqb k k0); simpl; lia. Qed.

Lemma add_group_exact_total (k0 k : K) (v : Z) (g : list (K * Z)) :
  cong64 (exact_total k0 (add_group cmp k v g))
         (exact_total k0 g + (if eqb k k0 then v else 0)).
Proof.
  induction g as [|[k' v'] g IH]; simpl.
  - rewrite exact_total_cons. unfold exact_total. simpl.
    destruct (eqb k k0); [|exists 0; lia].
    destruct (add64_cong 0 v) as [j J]. exists j. lia.
  - destruct (cmp k k') eqn:Hc.
    + apply cmp_eq in Hc. subst k'. rewrite !exact_total_cons.
      destruct (eqb k k0); [|exists 0; lia].
      destruct (add64_cong v' v) as [j J]. exists j. lia.
    + rewrite !exact_total_cons.
      destruct (eqb k k0); [|exists 0; lia].
      destruct (add64_cong 0 v) as [j J]. exists j. lia.
    + rewrite !exact_total_cons. destruct IH as [j J]. exists j. lia.
Qed.

Lemma groupby_fold_exact_total (k0 : K) (df : DataFrame) (g : list (K * Z)) :
  cong64 (exact_total k0 (fold_left step df g))
         (exact_total k0 g
          + exact_sum (map Deaths (filter (fun r => opt_eqb eqb (key r) (Some k0)) df))).
Proof.
  revert g. induction df as [|r df IH]; intros g; simpl.
  - exists 0. lia.
  - eapply cong64_trans; [apply IH|]. unfold step.
    destruct (key r) as [k|]; simpl.
    + destruct (add_group_exact_total k0 k (Deaths r) g) as [j J].
      destruct (eqb k k0); simpl; exists j; lia.
    + exists 0. lia.
Qed.

(** The rows of the grouped frame with key [k0] hold the sum over the
    rows of the frame whose key is [k0]. *)
Lemma groupby_sum_group_total (k0 : K) (df : DataFrame) :
  group_total eqb k0 (groupby_sum cmp key df)
  = total_deaths (filter (fun r => opt_eqb eqb (key r) (Some k0)) df).
Proof.
  rewrite group_total_exact, total_deaths_exact. apply wrap64_of_cong.
  unfold groupby_sum. apply (groupby_fold_exact_total k0 df []).
Qed.
End GroupTotal.

(** ** Timestamps and the latest date *)

Lemma ts_leb_spec (a b : Timestamp) :
  ts_leb a b = true
  <-> ts_year a < ts_year b \/ (ts_year a = ts_year b /\ ts_month a <= ts_month b).
Proof.
  unfold ts_leb, ts_compare.
  destruct (Z.compare_spec (ts_year a) (ts_year b));
    [destruct (Z.compare_spec (ts_month a) (ts_month b))| |];
    split; intros; try lia; try reflexivity; try discriminate.
Qed.

Lemma ts_leb_refl (a : Timestamp) : ts_leb a a = true.
Proof. apply ts_leb_spec. lia. Qed.

Lemma ts_leb_trans (a b c : Timestamp) :
  ts_leb a b = true -> ts_leb b c = true -> ts_leb a c = true.
Proof. rewrite !ts_leb_spec. lia. Qed.

Lemma ts_leb_total (a b : Timestamp) : ts_leb a b = false -> ts_leb b a = true.
Proof.
  intros H. apply ts_leb_spec.
  destruct (ts_leb a b) eqn:E; [discriminate|].
  assert (N : ~ (ts_year a < ts_year b
                 \/ (ts_year a = ts_year b /\ ts_month a <= ts_month b))).
  { intros C. apply ts_leb_spec in C. congruence. }
  lia.
Qed.


Lemma max_date_fold (fv : DataFrame) :
  forall acc : option Timestamp,
    match fold_left later fv acc with
    | None => acc = None /\ forall r, In r fv -> Date r = None
    | Some m =>
        (acc = Some m \/ exists r, In r fv /\ Date r = Some m)
        /\ (forall a, acc = Some a -> ts_leb a m = true)
        /\ (forall r d, In r fv -> Date r = Some d -> ts_leb d m = true)
    end.
Proof.
  induction fv as [|r fv IH]; intros acc; simpl.
  - destruct acc as [a|].
    + split; [auto|]. split; [|intros _ _ []].
      intros a' [= <-]. apply ts_leb_refl.
    + split; [reflexivity | intros _ []].
  - specialize (IH (later acc r)).
    destruct (fold_left later fv (later acc r)) as [m|].
    + destruct IH as (Hsrc & Hacc & Hall).
      assert (Hr : forall d, Date r = Some d -> ts_leb d m = true).
      { intros d Hd. unfold later in Hacc. rewrite Hd in Hacc.
        destruct acc as [a|].
        - destruct (ts_leb a d) eqn:E; [apply Hacc; reflexivity|].
          eapply ts_leb_trans; [apply ts_leb_total, E | apply Hacc; reflexivity].
        - apply Hacc. reflexivity. }
      split; [|split].
      * destruct Hsrc as [Hsrc | (r' & Hin & Hd)]; [|right; eauto].
        unfold later in Hsrc. destruct (Date r) as [d|] eqn:Hd.
        -- destruct acc as [a|].
           ++ destruct (ts_leb a d); injection Hsrc as <-; [right; eauto | left; reflexivity].
           ++ injection Hsrc as <-. right; eauto.
        -- left. exact Hsrc.
      * intros a ->. unfold later in Hacc. destruct (Date r) as [d|].
        -- destruct (ts_leb a d) eqn:E.
           ++ eapply ts_leb_trans; [exact E | apply Hacc; reflexivity].
           ++ apply Hacc. reflexivity.
        -- apply Hacc. reflexivity.
      * intros r' d [<- | Hin] Hd; [apply Hr, Hd | eapply Hall; eauto].
    + destruct IH as (Hacc & Hall).
      unfold later in Hacc. destruct (Date r) as [d|] eqn:Hd.
      * destruct acc; discriminate.
      * split; [exact Hacc|]. intros r' [<- | Hin]; auto.
Qed.

Lemma max_date_unfold (fv : DataFrame) : max_date fv = fold_left later fv None.
Proof. reflexivity. Qed.

(** [max_date] returns the maximum date present in the view. *)
Lemma max_date_is_max (fv : DataFrame) (m : Timestamp) :
  max_date fv = Some m -> is_max_date fv m.
Proof.
  intros H. pose proof (max_date_fold fv None) as F.
  rewrite <- max_date_unfold, H in F. destruct F as ([F | F] & _ & Hall).
  - discriminate.
  - split; assumption.
Qed.

(** [max_date] is NaT exactly when no row is dated. *)
Lemma max_date_NaT (fv : DataFrame) :
  max_date fv = None <-> (forall r, In r fv -> Date r = None).
Proof.
  pose proof (max_date_fold fv None) as F. rewrite <- max_date_unfold in F.
  destruct (max_date fv) as [m|].
  - destruct F as ([F | (r & Hin & Hd)] & _); [discriminate|].
    split; [discriminate|]. intros H. rewrite (H r Hin) in Hd. discriminate.
  - split; [intros _; apply F | reflexivity].
Qed.



(** The rows [recent] keeps, told from the latest date. *)
Lemma recent_of_max (fv : DataFrame) (m : Timestamp) :
  max_date fv = Some m -> recent fv = filter (in_last_12_months m) fv.
Proof.
  intros H. unfold recent, last_12_months_start. rewrite H. simpl.
  apply filter_ext. intros r. unfold ge_date, in_last_12_months.
  destruct (Date r); reflexivity.
Qed.

Lemma recent_of_NaT (fv : DataFrame) : max_date fv = None -> recent fv = [].
Proof.
  intros H. unfold recent, last_12_months_start. rewrite H. simpl. clear H.
  induction fv as [|r fv IH]; simpl; [reflexivity|].
  unfold ge_date at 1. destruct (Date r); exact IH.
Qed.

(** ** The sidebar defaults *)

Lemma isin_str_In (x : string) (values : list string) :
  isin_str x values = true <-> In x values.
Proof.
  unfold isin_str. rewrite existsb_exists. split.
  - intros (y & Hin & Heq). apply String.eqb_eq in Heq. now subst.
  - intros Hin. exists x. split; [exact Hin | apply String.eqb_refl].
Qed.

Lemma unique_In (x : string) (l : list string) : In x (unique l) <-> In x l.
Proof.
  induction l as [|y l IH]; simpl; [reflexivity|].
  rewrite filter_In, IH, negb_true_iff, String.eqb_neq.
  destruct (string_dec y x); intuition congruence.
Qed.

(** Every age label of the dataset is offered, and selected by default. *)
Lemma agegroups_all_In (df : DataFrame) (r : Row) :
  In r df -> In (Agegroup_pretty r) (agegroups_all df).
Proof.
  intros H. unfold agegroups_all.
  apply sort_values_In, unique_In, in_map, H.
Qed.

Lemma fold_min_le (l : list Z) :
  forall x y, y = x \/ In y l -> fold_left Z.min l x <= y.
Proof.
  induction l as [|z l IH]; simpl; intros x y H.
  - destruct H as [-> | []]. lia.
  - destruct H as [-> | [-> | H]].
    + specialize (IH (Z.min x z) (Z.min x z) (or_introl eq_refl)). lia.
    + specialize (IH (Z.min x y) (Z.min x y) (or_introl eq_refl)). lia.
    + apply IH. auto.
Qed.

Lemma fold_max_ge (l : list Z) :
  forall x y, y = x \/ In y l -> y <= fold_left Z.max l x.
Proof.
  induction l as [|z l IH]; simpl; intros x y H.
  - destruct H as [-> | []]. lia.
  - destruct H as [-> | [-> | H]].
    + specialize (IH (Z.max x z) (Z.max x z) (or_introl eq_refl)). lia.
    + specialize (IH (Z.max x y) (Z.max x y) (or_introl eq_refl)). lia.
    + apply IH. auto.
Qed.

Lemma year_min_le (df : DataFrame) (lo : Z) (r : Row) :
  year_min df = Some lo -> In r df -> lo <= Year r.
Proof.
  unfold year_min, col_min. destruct df as [|r0 df]; simpl; [discriminate|].
  intros [= <-] [<- | H]; apply fold_min_le; [left; reflexivity|].
  right. apply in_map, H.
Qed.

Lemma year_max_ge (df : DataFrame) (hi : Z) (r : Row) :
  year_max df = Some hi -> In r df -> Year r <= hi.
Proof.
  unfold year_max, col_max. destruct df as [|r0 df]; simpl; [discriminate|].
  intros [= <-] [<- | H]; apply fold_max_ge; [left; reflexivity|].
  right. apply in_map, H.
Qed.

(** With every control on its default the filter keeps the whole dataset. *)
Lemma filtered_default (s : Script) (df : DataFrame) (f : FilterSpec) :
  default_spec df = Some f -> filtered s df f = df.
Proof.
  unfold default_spec.
  destruct (year_min df) as [lo|] eqn:Hlo; [|discriminate].
  destruct (year_max df) as [hi|] eqn:Hhi; [|discriminate].
  destruct (lo <? hi); [|discriminate].
  intros [= <-]. rewrite filtered_one_mask. apply mask_all. intros r Hr.
  unfold active_predicates, region_ok, income_ok, countries_ok, agegroups_ok,
    agegroups_member, year_ok. simpl.
  rewrite (proj2 (isin_str_In _ _) (agegroups_all_In df r Hr)), orb_true_r.
  pose proof (year_min_le df lo r Hlo Hr). pose proof (year_max_ge df hi r Hhi Hr).
  apply andb_true_iff. split; [reflexivity|].
  apply andb_true_iff. split; apply Z.leb_le; assumption.
Qed.

(** * The filter *)

(** C1 (as amended).  When the age-group selection is empty the age step is
    skipped, exactly as the country step is for an empty country selection:
    the view is the rows that pass the region, income, country and year
    predicates, in their original order. *)
Theorem filtered_empty_agegroups (s : Script) (df : DataFrame) (f : FilterSpec) :
  agegroups_selected f = [] ->
  filtered s df f = filter (other_predicates s f) df.
Proof.
  intros H. rewrite filtered_one_mask. apply filter_ext. intros r.
  unfold active_predicates, other_predicates, agegroups_ok. rewrite H. simpl.
  rewrite andb_true_r. reflexivity.
Qed.

Lemma filtered_empty_agegroups_witness :
  agegroups_selected spec_no_agegroups = []
  /\ filtered code_py sample_df spec_no_agegroups
     = filter (other_predicates code_py spec_no_agegroups) sample_df.
Proof.
  split; [reflexivity|].
  apply (filtered_empty_agegroups code_py sample_df spec_no_agegroups).
  reflexivity.
Defined.

(** C1 as stated fails: with the age-group selection cleared and every other
    control on its default, the three-row sample passes the filter whole. *)
Lemma empty_agegroups_view_not_empty :
  agegroups_selected spec_no_agegroups = []
  /\ filtered code_py sample_df spec_no_agegroups = sample_df
  /\ filtered covid_py sample_df spec_no_agegroups = sample_df
  /\ sample_df <> [].
Proof. repeat split; try reflexivity. discriminate. Qed.

(** C5 (as amended).  The view is exactly the rows of the dataset that pass
    the conjunction of the predicates, each one switched off at its
    sentinel -- the age-group membership too, by an empty selection -- and
    the rows keep their order: the view is the dataset masked once. *)
Theorem filtered_exactly_active_predicates
        (s : Script) (df : DataFrame) (f : FilterSpec) :
  filtered s df f = filter (active_predicates s f) df.
Proof. apply filtered_one_mask. Qed.

(** C5 as stated fails: with age-group membership always active an empty
    selection admits no row, whereas the scripts return the whole sample. *)
Lemma filtered_not_spec_predicates :
  filter (spec_predicates code_py spec_no_agegroups) sample_df = []
  /\ filtered code_py sample_df spec_no_agegroups = sample_df
  /\ filtered code_py sample_df spec_no_agegroups
     <> filter (spec_predicates code_py spec_no_agegroups) sample_df.
Proof. repeat split; try reflexivity. discriminate. Qed.

(** Where some age group is selected, the two readings agree. *)
Lemma filtered_spec_predicates (s : Script) (df : DataFrame) (f : FilterSpec) :
  agegroups_selected f <> [] ->
  filtered s df f = filter (spec_predicates s f) df.
Proof.
  intros H. rewrite filtered_one_mask. apply filter_ext. intros r.
  unfold active_predicates, spec_predicates, agegroups_ok.
  destruct (agegroups_selected f); [congruence | reflexivity].
Qed.

Lemma run_Continued (s : Script) (df : DataFrame) (f : FilterSpec) (fv : DataFrame) :
  run s df f = Continued fv -> fv = filtered s df f /\ fv <> [].
Proof.
  unfold run. destruct (filtered s df f); simpl; [discriminate|].
  intros [= <-]. split; [reflexivity | discriminate].
Qed.


Lemma filtered_unrestricted (s : Script) (df : DataFrame) (f : FilterSpec) :
  maximally_unrestricted df f -> filtered s df f = df.
Proof.
  intros (Hreg & Hinc & Hcty & Hage & Hyear).
  rewrite filtered_one_mask. apply mask_all. intros r Hr.
  unfold active_predicates, region_ok, income_ok, countries_ok, agegroups_ok,
    agegroups_member, year_ok.
  rewrite Hreg, Hinc, Hcty. simpl.
  rewrite (proj2 (isin_str_In _ _) (Hage r Hr)), orb_true_r. simpl.
  specialize (Hyear r Hr).
  apply andb_true_iff. split; apply Z.leb_le; lia.
Qed.

(** The selection the sidebar starts with is maximally unrestricted. *)
Lemma default_spec_unrestricted (df : DataFrame) (f : FilterSpec) :
  default_spec df = Some f -> maximally_unrestricted df f.
Proof.
  unfold default_spec.
  destruct (year_min df) as [lo|] eqn:Hlo; [|discriminate].
  destruct (year_max df) as [hi|] eqn:Hhi; [|discriminate].
  destruct (lo <? hi); [|discriminate].
  intros [= <-]. unfold maximally_unrestricted. simpl.
  split; [reflexivity|]. split; [reflexivity|]. split; [reflexivity|].
  split; [intros r Hr; apply agegroups_all_In, Hr|].
  intros r Hr. split; [eapply year_min_le | eapply year_max_ge]; eassumption.
Qed.

(** C4 (as amended).  On a dataset of non-negative counts that add up to
    less than 2^53 (where an int64 and a float64 column both hold every sum
    exactly) the deaths of the view never exceed the deaths of the dataset;
    and under a maximally unrestricted selection (all regions, all income
    levels, no country, every age label of the dataset selected, a year
    range that spans the dataset) the two are equal.  The converse is left
    out: a restricting selection gives equality too. *)
Theorem filtered_total_le_dataset_total
        (s : Script) (df : DataFrame) (f : FilterSpec) :
  Forall (fun r => 0 <= Deaths r) df ->
  exact_sum (map Deaths df) < 2 ^ 53 ->
  total_deaths (filtered s df f) <= total_deaths df
  /\ (maximally_unrestricted df f ->
      total_deaths (filtered s df f) = total_deaths df).
Proof.
  intros Hpos Hsum. split.
  - rewrite filtered_one_mask. apply total_deaths_mask_le; [exact Hpos | lia].
  - intros Hmax. rewrite (filtered_unrestricted s df f Hmax). reflexivity.
Qed.

Lemma sample_spec_unrestricted : maximally_unrestricted sample_df sample_spec.
Proof.
  split; [reflexivity|]. split; [reflexivity|]. split; [reflexivity|].
  split; intros r Hr; vm_compute in Hr;
    destruct Hr as [<- | [<- | [<- | []]]]; vm_compute;
    auto; split; discriminate.
Qed.

Lemma filtered_total_le_dataset_total_witness :
  Forall (fun r => 0 <= Deaths r) sample_df
  /\ exact_sum (map Deaths sample_df) < 2 ^ 53
  /\ maximally_unrestricted sample_df sample_spec
  /\ total_deaths (filtered code_py sample_df sample_spec) <= total_deaths sample_df
  /\ total_deaths (filtered code_py sample_df sample_spec) = total_deaths sample_df.
Proof.
  assert (Hpos : Forall (fun r => 0 <= Deaths r) sample_df).
  { repeat constructor; vm_compute; discriminate. }
  assert (Hsum : exact_sum (map Deaths sample_df) < 2 ^ 53) by reflexivity.
  destruct (filtered_total_le_dataset_total code_py sample_df sample_spec Hpos Hsum)
    as [Hle Heq].
  split; [exact Hpos|]. split; [exact Hsum|].
  split; [exact sample_spec_unrestricted|]. split; [exact Hle|].
  apply Heq. exact sample_spec_unrestricted.
Defined.

(** C4 as stated fails twice.  Its "only if": picking the Americas in
    [code.py] removes the French row, which carries no death, so the totals
    are equal (150) under a selection that restricts.  Its bound: with two
    counts of 2^62 the dataset's 64-bit total wraps to -2^63, below the 2^62
    of the view of the year 2020. *)
Lemma restricted_spec_keeps_total :
  (Forall (fun r => 0 <= Deaths r) sample_df
   /\ total_deaths (filtered code_py sample_df spec_americas) = total_deaths sample_df
   /\ filtered code_py sample_df spec_americas <> sample_df
   /\ default_spec sample_df <> Some spec_americas
   /\ ~ maximally_unrestricted sample_df spec_americas)
  /\
  (Forall (fun r => 0 <= Deaths r) big_df
   /\ total_deaths (filtered code_py big_df spec_2020) = 2 ^ 62
   /\ total_deaths big_df = - 2 ^ 63).
Proof.
  split.
  - split; [repeat constructor; vm_compute; discriminate|].
    split; [reflexivity|]. split; [discriminate|]. split; [discriminate|].
    intros (H & _). discriminate H.
  - split; [repeat constructor; vm_compute; discriminate|].
    split; reflexivity.
Qed.

(** * Country totals *)

(** C6.  Whatever the dataset and the selection, no row of Country Totals
    has a null country, and none has the country Unknown. *)
Theorem map_data_no_null_no_unknown (s : Script) (df : DataFrame) (f : FilterSpec) :
  Forall (fun g => fst g <> None /\ fst g <> Some "Unknown"%string)
         (map_data (filtered s df f)).
Proof.
  apply Forall_forall. intros [c d] Hin. unfold map_data in Hin.
  apply filter_In in Hin. destruct Hin as [Hin Hne].
  apply filter_In in Hin. destruct Hin as [_ Hna].
  simpl in *. split.
  - intros ->. discriminate.
  - intros ->. discriminate.
Qed.



(** ** Key orders *)

Lemma ts_compare_eq (a b : Timestamp) : ts_compare a b = Eq -> a = b.
Proof.
  unfold ts_compare. destruct a as [ya ma], b as [yb mb]. simpl.
  destruct (ya ?= yb) eqn:Hy; try discriminate.
  intros Hm. apply Z.compare_eq in Hy, Hm. congruence.
Qed.

Lemma pair_compare_eq {A B : Type} (ca : A -> A -> comparison)
      (cb : B -> B -> comparison) :
  (forall x y, ca x y = Eq -> x = y) ->
  (forall x y, cb x y = Eq -> x = y) ->
  forall x y, pair_compare ca cb x y = Eq -> x = y.
Proof.
  intros Ha Hb [a1 b1] [a2 b2]. unfold pair_compare. simpl.
  destruct (ca a1 a2) eqn:Hc; try discriminate.
  intros Hd. apply Ha in Hc. apply Hb in Hd. congruence.
Qed.

Lemma ts_key_order (x y : Timestamp * string) :
  pair_compare ts_compare String.compare x y = Eq -> x = y.
Proof. apply pair_compare_eq; [apply ts_compare_eq | apply String.compare_eq_iff]. Qed.

Lemma heat_key_order (x y : Z * string) :
  pair_compare Z.compare String.compare x y = Eq -> x = y.
Proof. apply pair_compare_eq; [apply Z.compare_eq | apply String.compare_eq_iff]. Qed.

(** ** One row per key *)

Section GroupByOrder.
Context {K : Type} (cmp : K -> K -> comparison).
Hypothesis cmp_eq : forall x y, cmp x y = Eq -> x = y.
Hypothesis cmp_antisym : forall x y, cmp x y = CompOpp (cmp y x).
Hypothesis cmp_trans : forall x y z, cmp x y = Lt -> cmp y z = Lt -> cmp x z = Lt.

Variable key : Row -> option K.

Let key_lt (a b : K * Z) : Prop := cmp (fst a) (fst b) = Lt.

Lemma HdRel_same_key (k : K) (v v' : Z) (g : list (K * Z)) :
  HdRel key_lt (k, v) g -> HdRel key_lt (k, v') g.
Proof. intros H. destruct H; constructor. assumption. Qed.

Lemma add_group_HdRel (a : K * Z) (k : K) (v : Z) (g : list (K * Z)) :
  cmp (fst a) k = Lt -> HdRel key_lt a g -> HdRel key_lt a (add_group cmp k v g).
Proof.
  intros Hak Hg. destruct g as [|[k' v'] g]; simpl.
  - constructor. exact Hak.
  - inversion Hg; subst. destruct (cmp k k'); constructor; assumption.
Qed.

Lemma add_group_Sorted (k : K) (v : Z) (g : list (K * Z)) :
  Sorted key_lt g -> Sorted key_lt (add_group cmp k v g).
Proof.
  induction 1 as [|[k' v'] g Hs IH Hhd]; simpl.
  - repeat constructor.
  - destruct (cmp k k') eqn:Hc.
    + constructor; [exact Hs | eapply HdRel_same_key; exact Hhd].
    + constructor; [constructor; assumption | constructor; exact Hc].
    + constructor; [exact IH|].
      apply add_group_HdRel; [|exact Hhd].
      simpl. rewrite cmp_antisym, Hc. reflexivity.
Qed.

(** The groups come out in strictly increasing key order. *)
Lemma groupby_sum_Sorted (df : DataFrame) :
  Sorted key_lt (groupby_sum cmp key df).
Proof.
  unfold groupby_sum.
  assert (H : Sorted key_lt []) by constructor.
  revert H. generalize (@nil (K * Z)).
  induction df as [|r df IH]; intros g Hg; simpl; [exact Hg|].
  apply IH. destruct (key r); [apply add_group_Sorted|]; exact Hg.
Qed.

Lemma Sorted_keys_NoDup (g : list (K * Z)) :
  Sorted key_lt g -> NoDup (map fst g).
Proof.
  intros Hs. apply Sorted_StronglySorted in Hs.
  - induction Hs as [|a g Hs IH Hall]; simpl; constructor; [|exact IH].
    intros Hin. apply in_map_iff in Hin. destruct Hin as (b & Hb & Hin).
    rewrite Forall_forall in Hall. specialize (Hall b Hin).
    unfold key_lt in Hall. rewrite Hb in Hall.
    pose proof (cmp_antisym (fst a) (fst a)) as Ha.
    rewrite Hall in Ha. discriminate.
  - intros x y z. unfold key_lt. apply cmp_trans.
Qed.

(** A grouped frame has one row per key. *)
Lemma groupby_sum_keys_NoDup (df : DataFrame) :
  NoDup (map fst (groupby_sum cmp key df)).
Proof. apply Sorted_keys_NoDup, groupby_sum_Sorted. Qed.
End GroupByOrder.

Lemma string_compare_trans (x y z : string) :
  String.compare x y = Lt -> String.compare y z = Lt -> String.compare x z = Lt.
Proof.
  intros H1 H2. apply String_as_OT.cmp_lt.
  apply String_as_OT.cmp_lt in H1, H2.
  eapply String_as_OT.lt_trans; eassumption.
Qed.

Lemma Z_compare_antisym (x y : Z) : (x ?= y) = CompOpp (y ?= x).
Proof. apply Z.compare_antisym. Qed.

Lemma Z_compare_trans (x y z : Z) : (x ?= y) = Lt -> (y ?= z) = Lt -> (x ?= z) = Lt.
Proof. rewrite !Z.compare_lt_iff. lia. Qed.

Section PairOrder.
Context {A B : Type} (ca : A -> A -> comparison) (cb : B -> B -> comparison).
Hypothesis ca_eq : forall x y, ca x y = Eq -> x = y.
Hypothesis ca_antisym : forall x y, ca x y = CompOpp (ca y x).
Hypothesis ca_trans : forall x y z, ca x y = Lt -> ca y z = Lt -> ca x z = Lt.
Hypothesis cb_antisym : forall x y, cb x y = CompOpp (cb y x).
Hypothesis cb_trans : forall x y z, cb x y = Lt -> cb y z = Lt -> cb x z = Lt.

Lemma pair_compare_antisym (x y : A * B) :
  pair_compare ca cb x y = CompOpp (pair_compare ca cb y x).
Proof.
  unfold pair_compare. rewrite (ca_antisym (fst x) (fst y)).
  destruct (ca (fst y) (fst x)); simpl; auto.
Qed.

Lemma pair_compare_trans (x y z : A * B) :
  pair_compare ca cb x y = Lt -> pair_compare ca cb y z = Lt ->
  pair_compare ca cb x z = Lt.
Proof.
  unfold pair_compare.
  destruct (ca (fst x) (fst y)) eqn:Hxy; try discriminate;
    destruct (ca (fst y) (fst z)) eqn:Hyz; try discriminate; intros H1 H2.
  - apply ca_eq in Hxy, Hyz.
    assert (Hxz : ca (fst x) (fst z) = Eq).
    { rewrite Hxy, Hyz. pose proof (ca_antisym (fst z) (fst z)) as Hz.
      destruct (ca (fst z) (fst z)); [reflexivity | discriminate | discriminate]. }
    rewrite Hxz. eapply cb_trans; eassumption.
  - apply ca_eq in Hxy. rewrite Hxy, Hyz. reflexivity.
  - apply ca_eq in Hyz. rewrite <- Hyz, Hxy. reflexivity.
  - rewrite (ca_trans _ _ _ Hxy Hyz). reflexivity.
Qed.
End PairOrder.

Lemma ts_compare_antisym (a b : Timestamp) : ts_compare a b = CompOpp (ts_compare b a).
Proof.
  unfold ts_compare. rewrite (Z_compare_antisym (ts_year a) (ts_year b)).
  destruct (ts_year b ?= ts_year a); simpl; auto using Z_compare_antisym.
Qed.

Lemma ts_compare_trans (a b c : Timestamp) :
  ts_compare a b = Lt -> ts_compare b c = Lt -> ts_compare a c = Lt.
Proof.
  unfold ts_compare.
  destruct (Z.compare_spec (ts_year a) (ts_year b));
    destruct (Z.compare_spec (ts_year b) (ts_year c));
    destruct (Z.compare_spec (ts_year a) (ts_year c));
    rewrite ?Z.compare_lt_iff; intros; try lia; try discriminate; try reflexivity.
Qed.

(** The heatmap has one cell per (year, age label). *)
Lemma heat_keys_NoDup (fv : DataFrame) : NoDup (map fst (heat fv)).
Proof.
  unfold heat. apply groupby_sum_keys_NoDup.
  - apply pair_compare_antisym; [apply Z_compare_antisym | apply String_as_OT.cmp_antisym].
  - apply pair_compare_trans;
      [apply Z.compare_eq | apply Z_compare_antisym | apply Z_compare_trans
       | apply string_compare_trans].
Qed.

Lemma NoDup_mask {A B : Type} (w : A -> B) (p : A -> bool) (l : list A) :
  NoDup (map w l) -> NoDup (map w (filter p l)).
Proof.
  induction l as [|x l IH]; simpl; intros H; [constructor|].
  inversion H as [|? ? Hx Hl]; subst.
  destruct (p x); simpl; [constructor|]; auto.
  intros Hin. apply Hx. apply in_map_iff in Hin. destruct Hin as (y & Hy & Hin).
  apply filter_In in Hin. apply in_map_iff. exists y. tauto.
Qed.

(** Country Totals have one row per country. *)
Lemma map_data_keys_NoDup (fv : DataFrame) : NoDup (map fst (map_data fv)).
Proof.
  unfold map_data. do 2 apply NoDup_mask.
  rewrite map_map. simpl.
  rewrite <- (map_map fst Some).
  apply Finite.Injective_map_NoDup; [intros x y [= ->]; reflexivity|].
  apply groupby_sum_keys_NoDup.
  - apply String_as_OT.cmp_antisym.
  - apply string_compare_trans.
Qed.

(** Region Totals have one row per region. *)
Lemma region_deaths_keys_NoDup (s : Script) (fv : DataFrame) :
  NoDup (map fst (region_deaths s fv)).
Proof.
  unfold region_deaths.
  eapply Permutation_NoDup;
    [apply Permutation_map, Permutation_sym, sort_values_perm|].
  apply groupby_sum_keys_NoDup.
  - apply String_as_OT.cmp_antisym.
  - apply string_compare_trans.
Qed.

(** The Time Series has one row per (date, age label). *)
Lemma ts_keys_NoDup (fv : DataFrame) : NoDup (map fst (ts fv)).
Proof.
  unfold ts.
  eapply Permutation_NoDup;
    [apply Permutation_map, Permutation_sym, sort_values_perm|].
  apply groupby_sum_keys_NoDup.
  - apply pair_compare_antisym; [apply ts_compare_antisym | apply String_as_OT.cmp_antisym].
  - apply pair_compare_trans;
      [apply ts_compare_eq | apply ts_compare_antisym | apply ts_compare_trans
       | apply string_compare_trans].
Qed.

(** * Cross-aggregation totals *)

(** The Time Series sums add up to the deaths of the dated rows. *)
Lemma ts_col_sum (fv : DataFrame) :
  col_sum (map snd (ts fv)) = total_deaths (filter (fun r => notna (Date r)) fv).
Proof.
  unfold ts. rewrite sort_values_col_sum, groupby_sum_col_sum.
  f_equal. apply filter_ext. intros r. unfold ts_key. destruct (Date r); reflexivity.
Qed.

(** The Region Totals add up to the deaths of the rows that have a region. *)
Lemma region_deaths_col_sum (s : Script) (fv : DataFrame) :
  col_sum (map snd (region_deaths s fv))
  = total_deaths (filter (fun r => notna (region_column s r)) fv).
Proof. unfold region_deaths. rewrite sort_values_col_sum. apply groupby_sum_col_sum. Qed.

Lemma notna_true {A : Type} (x : option A) : x <> None -> notna x = true.
Proof. destruct x; [reflexivity | congruence]. Qed.

(** C2 (as amended).  In a run that goes past the emptiness check, if
    every row of the view is dated, the Time Series sums taken over all
    dates and age groups add up to the KPI [total_deaths]. *)
Theorem ts_sums_equal_total_deaths
        (s : Script) (df : DataFrame) (f : FilterSpec) (fv : DataFrame) :
  run s df f = Continued fv ->
  (forall r, In r fv -> Date r <> None) ->
  col_sum (map snd (ts fv)) = total_deaths fv.
Proof.
  intros _ Hdated. rewrite ts_col_sum. f_equal. apply mask_all.
  intros r Hr. apply notna_true, Hdated, Hr.
Qed.

Lemma ts_sums_equal_total_deaths_witness :
  run code_py sample_df sample_spec = Continued sample_df
  /\ col_sum (map snd (ts sample_df)) = total_deaths sample_df.
Proof.
  split; [reflexivity|].
  apply (ts_sums_equal_total_deaths code_py sample_df sample_spec sample_df).
  - reflexivity.
  - intros r Hr. simpl in Hr.
    destruct Hr as [<- | [<- | [<- | []]]]; discriminate.
Defined.

(** C2 as stated fails: a row with month 13 has no date, the Time Series
    leaves it out, and its 7 deaths are missing from the sums. *)
Lemma ts_sums_miss_undated_rows :
  let fv := month13_df in
  run code_py fv sample_spec = Continued fv
  /\ col_sum (map snd (ts fv)) = 150
  /\ total_deaths fv = 157.
Proof. repeat split; reflexivity. Qed.

(** C3 (as amended).  In a run that goes past the emptiness check, if
    every row of the view has a region label, the Region Totals add up to
    the KPI [total_deaths]. *)
Theorem region_totals_equal_total_deaths
        (s : Script) (df : DataFrame) (f : FilterSpec) (fv : DataFrame) :
  run s df f = Continued fv ->
  (forall r, In r fv -> region_column s r <> None) ->
  col_sum (map snd (region_deaths s fv)) = total_deaths fv.
Proof.
  intros _ Hreg. rewrite region_deaths_col_sum. f_equal. apply mask_all.
  intros r Hr. apply notna_true, Hreg, Hr.
Qed.

Lemma region_totals_equal_total_deaths_witness :
  run covid_py sample_df sample_spec = Continued sample_df
  /\ col_sum (map snd (region_deaths covid_py sample_df)) = total_deaths sample_df.
Proof.
  split; [reflexivity|].
  apply (region_totals_equal_total_deaths covid_py sample_df sample_spec sample_df).
  - reflexivity.
  - intros r Hr. simpl in Hr.
    destruct Hr as [<- | [<- | [<- | []]]]; discriminate.
Defined.

(** C3 as stated fails: a row without a region is in no group of Region
    Totals, and its 5 deaths are missing from their sum, in both scripts. *)
Lemma region_totals_miss_rows_without_region :
  let fv := noregion_df in
  run code_py fv sample_spec = Continued fv
  /\ run covid_py fv sample_spec = Continued fv
  /\ col_sum (map snd (region_deaths code_py fv)) = 150
  /\ col_sum (map snd (region_deaths covid_py fv)) = 150
  /\ total_deaths fv = 155.
Proof. repeat split; reflexivity. Qed.

(** * The recent window *)



(** The window moves with the filter: on the same dataset, closing the year
    range at 2021 makes January 2021 the latest date and counts the 30
    deaths since January 2020; opening it to 2022 makes June 2022 the latest
    date and counts only its 40. *)
Example recent_window_moves_with_filter :
  let df := two_year_df in
  max_date (filtered code_py df spec_2020_2021) = Some (mkTimestamp 2021 1)
  /\ recent_deaths (filtered code_py df spec_2020_2021) = 30
  /\ max_date (filtered code_py df spec_2020_2022) = Some (mkTimestamp 2022 6)
  /\ recent_deaths (filtered code_py df spec_2020_2022) = 40.
Proof. repeat split; reflexivity. Qed.

(** C10 (as amended).  In a run that goes past the emptiness check with a
    view of non-negative counts that add up to less than 2^53 (where an
    int64 and a float64 column both hold every sum exactly),
    [recent_deaths] is at most [total_deaths]: the recent rows are a mask of
    the view. *)
Theorem recent_deaths_le_total_deaths
        (s : Script) (df : DataFrame) (f : FilterSpec) (fv : DataFrame) :
  run s df f = Continued fv ->
  Forall (fun r => 0 <= Deaths r) fv ->
  exact_sum (map Deaths fv) < 2 ^ 53 ->
  recent_deaths fv <= total_deaths fv.
Proof.
  intros _ Hpos Hsum. unfold recent_deaths, recent.
  apply total_deaths_mask_le; [exact Hpos | lia].
Qed.

Lemma recent_deaths_le_total_deaths_witness :
  let fv := two_year_df in
  run code_py fv spec_2020_2022 = Continued fv
  /\ recent_deaths fv <= total_deaths fv.
Proof.
  split; [reflexivity|].
  apply (recent_deaths_le_total_deaths code_py two_year_df spec_2020_2022).
  - reflexivity.
  - repeat constructor; vm_compute; discriminate.
  - reflexivity.
Defined.

(** C10 as stated fails on 64-bit counts: two non-negative counts of 2^62,
    dated January 2020 and June 2022, pass the emptiness check; their
    [total_deaths] wraps to -2^63, while [recent_deaths] holds the one count
    of June 2022, 2^62. *)
Lemma recent_deaths_exceed_wrapped_total :
  run code_py big_df spec_2020_2022 = Continued big_df
  /\ Forall (fun r => 0 <= Deaths r) big_df
  /\ total_deaths big_df = - 2 ^ 63
  /\ recent_deaths big_df = 2 ^ 62
  /\ total_deaths big_df < recent_deaths big_df.
Proof.
  split; [reflexivity|].
  split; [repeat constructor; vm_compute; discriminate|].
  split; [reflexivity|]. split; reflexivity.
Qed.

(** * A first line with a negative month *)

(** C8 (the code at the failing input).  The date strings are read with
    one format, taken from the first line.  A first line with month -1
    gives the string 2021--1-01, read as year, dash, month: the line is
    dated January 2021 although its month is invalid, and the ordinary line
    that follows, 2021-2-01, does not fit that format and loses its date.
    The Time Series then holds the 7 deaths of the invalid line under
    January 2021 and misses the 50 deaths of February. *)
Theorem load_data_dash_first :
  exists r1 r2,
    load_data dash_first_csv = Some [r1; r2]
    /\ (Month r1 = -1 /\ Date r1 = Some (mkTimestamp 2021 1))
    /\ (Month r2 = 2 /\ Date r2 = None)
    /\ ts [r1; r2] = [((mkTimestamp 2021 1, "65+"%string), 7)]
    /\ total_deaths [r1; r2] = 57.
Proof.
  exists (load_line YmdDash (csv "US" "AMR" "High" 2021 (-1) "65+" 7)),
         (load_line YmdDash (csv "US" "AMR" "High" 2021 2 "65+" 50)).
  repeat split; reflexivity.
Qed.

(** * Further properties of the scripts *)

(** ** Sorted output *)

Lemma sort_values_nil_iff {A : Type} (leb : A -> A -> bool) (l : list A) :
  sort_values leb l = [] <-> l = [].
Proof.
  split.
  - intros H. pose proof (sort_values_perm leb l) as P. rewrite H in P.
    apply Permutation_nil in P. exact P.
  - intros ->. reflexivity.
Qed.

Section SortedOrder.
Context {A : Type} (leb : A -> A -> bool).
Hypothesis leb_total : forall x y, leb x y = false -> leb y x = true.
Hypothesis leb_trans : forall x y z, leb x y = true -> leb y z = true -> leb x z = true.

Let le (x y : A) : Prop := leb x y = true.

Lemma leb_refl_of_total (x : A) : leb x x = true.
Proof.
  pose proof (leb_total x x) as H.
  destruct (leb x x); [reflexivity | apply H; reflexivity].
Qed.

Lemma insert_by_Forall (P : A -> Prop) (x : A) (l : list A) :
  P x -> Forall P l -> Forall P (insert_by leb x l).
Proof.
  intros Hx Hl. induction Hl as [|y l Hy Hl IH]; simpl.
  - constructor; [exact Hx | constructor].
  - destruct (leb x y); repeat constructor; assumption.
Qed.

Lemma insert_by_sorted (x : A) (l : list A) :
  StronglySorted le l -> StronglySorted le (insert_by leb x l).
Proof.
  induction 1 as [|y l Hs IH Hall]; simpl.
  - constructor; constructor.
  - destruct (leb x y) eqn:E.
    + constructor; [constructor; assumption|].
      constructor; [exact E|].
      eapply Forall_impl; [|exact Hall]. intros z Hz. eapply leb_trans; eassumption.
    + constructor; [exact IH|].
      apply insert_by_Forall; [apply leb_total, E | exact Hall].
Qed.

(** The rows come out in the order asked for. *)
Lemma sort_values_sorted (l : list A) : StronglySorted le (sort_values leb l).
Proof.
  induction l as [|x l IH]; simpl; [constructor | apply insert_by_sorted, IH].
Qed.

(** Position 0 of a sorted frame is a row of the frame that is below every
    row. *)
Lemma sort_values_hd (x : A) (l : list A) :
  hd_error (sort_values leb l) = Some x ->
  In x l /\ forall y, In y l -> leb x y = true.
Proof.
  intros H. pose proof (sort_values_sorted l) as S.
  destruct (sort_values leb l) as [|x' t] eqn:E; [discriminate|].
  injection H as ->.
  assert (Hin : forall y, In y l <-> In y (x :: t)).
  { intros y. rewrite <- E. symmetry. apply sort_values_In. }
  split; [apply Hin; left; reflexivity|].
  intros y Hy. apply Hin in Hy. destruct Hy as [<- | Hy].
  - apply leb_refl_of_total.
  - inversion S as [|? ? _ Hall]; subst.
    rewrite Forall_forall in Hall. apply Hall, Hy.
Qed.
End SortedOrder.

Lemma hd_error_sort_values_None {A : Type} (leb : A -> A -> bool) (l : list A) :
  hd_error (sort_values leb l) = None <-> l = [].
Proof.
  rewrite <- (sort_values_nil_iff leb l).
  destruct (sort_values leb l); simpl; split; congruence.
Qed.

(** ** Rows of a grouped frame *)

Lemma filter_key_absent {K : Type} (eqb : K -> K -> bool) (k : K) (g : list (K * Z)) :
  (forall x y, eqb x y = true -> x = y) ->
  ~ In k (map fst g) -> filter (fun e => eqb (fst e) k) g = [].
Proof.
  intros Heq. induction g as [|[k' v'] g IH]; simpl; intros Hn; [reflexivity|].
  destruct (eqb k' k) eqn:E.
  - exfalso. apply Hn. left. apply Heq, E.
  - apply IH. tauto.
Qed.

Lemma filter_key_unique {K : Type} (eqb : K -> K -> bool) (k : K) (v : Z)
      (g : list (K * Z)) :
  (forall x y, eqb x y = true <-> x = y) ->
  NoDup (map fst g) -> In (k, v) g -> filter (fun e => eqb (fst e) k) g = [(k, v)].
Proof.
  intros Heq. induction g as [|[k' v'] g IH]; simpl; intros Hnd Hin; [contradiction|].
  inversion Hnd as [|? ? Hk Hnd']; subst.
  destruct Hin as [[= -> ->] | Hin].
  - rewrite (proj2 (Heq k k) eq_refl).
    rewrite filter_key_absent; [reflexivity | apply Heq | exact Hk].
  - destruct (eqb k' k) eqn:E.
    + apply Heq in E. subst k'. exfalso. apply Hk.
      apply in_map_iff. exists (k, v). auto.
    + apply IH; assumption.
Qed.

Lemma group_total_absent {K : Type} (eqb : K -> K -> bool) (k : K) (g : list (K * Z)) :
  (forall x y, eqb x y = true -> x = y) ->
  ~ In k (map fst g) -> group_total eqb k g = 0.
Proof.
  intros Heq Hn. unfold group_total.
  rewrite filter_key_absent by assumption. reflexivity.
Qed.

(** In a frame with one row per key, the row of a key holds the whole
    total of that key. *)
Lemma group_total_unique {K : Type} (eqb : K -> K -> bool) (k : K) (v : Z)
      (g : list (K * Z)) :
  (forall x y, eqb x y = true <-> x = y) ->
  NoDup (map fst g) -> In (k, v) g -> - 2 ^ 63 <= v < 2 ^ 63 ->
  group_total eqb k g = v.
Proof.
  intros Heq Hnd Hin Hv. unfold group_total.
  rewrite (filter_key_unique eqb k v g Heq Hnd Hin). simpl.
  unfold add64. rewrite Z.add_0_r. apply wrap64_small, Hv.
Qed.

Section GroupRows.
Context {K : Type} (cmp : K -> K -> comparison) (eqb : K -> K -> bool).
Hypothesis cmp_eq : forall x y, cmp x y = Eq -> x = y.
Hypothesis cmp_antisym : forall x y, cmp x y = CompOpp (cmp y x).
Hypothesis cmp_trans : forall x y z, cmp x y = Lt -> cmp y z = Lt -> cmp x z = Lt.
Hypothesis eqb_eq : forall x y, eqb x y = true <-> x = y.

Variable key : Row -> option K.

(** A grouped frame has a row [(k, v)] exactly when some row of the frame
    carries the key [k] and [v] is the sum of [Deaths] over the rows that
    carry it. *)
Lemma groupby_sum_rows (k : K) (v : Z) (df : DataFrame) :
  In (k, v) (groupby_sum cmp key df)
  <-> (exists r, In r df /\ key r = Some k)
      /\ v = total_deaths (filter (fun r => opt_eqb eqb (key r) (Some k)) df).
Proof.
  pose proof (groupby_sum_keys_NoDup cmp cmp_antisym cmp_trans key df) as Hnd.
  pose proof (groupby_sum_in_range cmp key df) as Hrng.
  pose proof (groupby_sum_group_total cmp eqb cmp_eq key k df) as Htot.
  pose proof (groupby_sum_keys cmp cmp_eq key k df) as Hkeys.
  split.
  - intros Hin. split.
    + apply Hkeys. apply in_map_iff. exists (k, v). auto.
    + rewrite <- Htot. symmetry. apply group_total_unique; try assumption.
      apply (proj1 (Forall_forall _ _) Hrng (k, v) Hin).
  - intros [Hex ->]. apply Hkeys in Hex.
    apply in_map_iff in Hex. destruct Hex as ([k' v'] & Hk & Hin).
    simpl in Hk. subst k'.
    rewrite <- Htot, (group_total_unique eqb k v' _ eqb_eq Hnd Hin); [exact Hin|].
    apply (proj1 (Forall_forall _ _) Hrng (k, v') Hin).
Qed.
End GroupRows.

(** ** Key equality and sort orders *)

Lemma ts_eqb_eq (a b : Timestamp) : ts_eqb a b = true <-> a = b.
Proof.
  unfold ts_eqb. destruct a as [ya ma], b as [yb mb]. simpl.
  rewrite andb_true_iff, !Z.eqb_eq. split; [intros [-> ->]; reflexivity|].
  intros [= -> ->]. auto.
Qed.

Lemma pair_eqb_eq {A B : Type} (ea : A -> A -> bool) (eb : B -> B -> bool) :
  (forall x y, ea x y = true <-> x = y) ->
  (forall x y, eb x y = true <-> x = y) ->
  forall x y, pair_eqb ea eb x y = true <-> x = y.
Proof.
  intros Ha Hb [a1 b1] [a2 b2]. unfold pair_eqb. simpl.
  rewrite andb_true_iff, Ha, Hb. split; [intros [-> ->]; reflexivity|].
  intros [= -> ->]. auto.
Qed.

Lemma opt_eqb_label (x : option string) (label : string) :
  opt_eqb String.eqb x (Some label) = eq_label x label.
Proof. destruct x; reflexivity. Qed.

Lemma string_leb_total (x y : string) : String.leb x y = false -> String.leb y x = true.
Proof. intros H. destruct (String.leb_total x y) as [E | E]; congruence. Qed.

Lemma string_leb_iff (x y : string) :
  String.leb x y = true <-> x = y \/ String.compare x y = Lt.
Proof.
  unfold String.leb. destruct (String.compare x y) eqn:E; split; intros H;
    try discriminate; auto.
  - left. apply String.compare_eq_iff, E.
  - destruct H as [-> | H]; [|discriminate].
    pose proof (proj2 (String_as_OT.cmp_eq y y) eq_refl) as R.
    unfold String_as_OT.cmp in R. congruence.
Qed.

Lemma string_leb_trans (x y z : string) :
  String.leb x y = true -> String.leb y z = true -> String.leb x z = true.
Proof.
  rewrite !string_leb_iff. intros [-> | H1] [-> | H2]; auto.
  right. eapply string_compare_trans; eassumption.
Qed.

Lemma Z_leb_total (x y : Z) : (x <=? y) = false -> (y <=? x) = true.
Proof. rewrite Z.leb_gt, Z.leb_le. lia. Qed.

Lemma Z_leb_trans (x y z : Z) :
  (x <=? y) = true -> (y <=? z) = true -> (x <=? z) = true.
Proof. rewrite !Z.leb_le. lia. Qed.

Lemma StronglySorted_weaken {A : Type} (R R' : A -> A -> Prop) (l : list A) :
  (forall a b, R a b -> R' a b) -> StronglySorted R l -> StronglySorted R' l.
Proof.
  intros HR. induction 1 as [|x l _ IH Hall]; constructor; [exact IH|].
  eapply Forall_impl; [|exact Hall]. intros b. apply HR.
Qed.

(** Descending order on the [Deaths] column of a grouped frame. *)
Lemma by_deaths_desc_sorted {K : Type} (g : list (K * Z)) :
  StronglySorted (fun a b => snd b <= snd a)
                 (sort_values (fun a b => snd b <=? snd a) g).
Proof.
  eapply StronglySorted_weaken;
    [|apply (sort_values_sorted (fun a b : K * Z => snd b <=? snd a))].
  - intros a b H. apply Z.leb_le, H.
  - intros x y. apply Z_leb_total.
  - intros x y z H1 H2. eapply Z_leb_trans; eassumption.
Qed.

(** ** What each chart is handed *)

(** X1.  Region Totals: one row per region label present in the view, each
    holding the sum of deaths over the rows of that region, largest total
    first.  A label is listed exactly when some row of the view carries it. *)
Theorem region_deaths_rows (s : Script) (fv : DataFrame) :
  NoDup (map fst (region_deaths s fv))
  /\ StronglySorted (fun a b => snd b <= snd a) (region_deaths s fv)
  /\ forall label v,
       In (label, v) (region_deaths s fv)
       <-> (exists r, In r fv /\ region_column s r = Some label)
           /\ v = total_deaths
                    (filter (fun r => eq_label (region_column s r) label) fv).
Proof.
  split; [apply region_deaths_keys_NoDup|].
  split; [apply by_deaths_desc_sorted|].
  intros label v. unfold region_deaths. rewrite sort_values_In.
  rewrite (groupby_sum_rows String.compare String.eqb String.compare_eq_iff
             String_as_OT.cmp_antisym string_compare_trans String.eqb_eq).
  rewrite (filter_ext _ (fun r => eq_label (region_column s r) label));
    [reflexivity|].
  intros r. apply opt_eqb_label.
Qed.

Lemma ts_key_Some (r : Row) (d : Timestamp) (a : string) :
  ts_key r = Some (d, a) <-> Date r = Some d /\ Agegroup_pretty r = a.
Proof.
  unfold ts_key. destruct (Date r) as [d'|]; split.
  - intros [= -> ->]. auto.
  - intros [[= ->] ->]. reflexivity.
  - discriminate.
  - intros [H _]. discriminate.
Qed.

(** X2.  Time Series: one row per (date, age label) present among the dated
    rows of the view, each holding the sum of deaths over the rows with that
    date and label, in ascending date order.  Undated rows are in no group. *)
Theorem ts_rows (fv : DataFrame) :
  NoDup (map fst (ts fv))
  /\ StronglySorted (fun x y => ts_leb (fst (fst x)) (fst (fst y)) = true) (ts fv)
  /\ forall d a v,
       In ((d, a), v) (ts fv)
       <-> (exists r, In r fv /\ Date r = Some d /\ Agegroup_pretty r = a)
           /\ v = total_deaths (filter (in_ts_group d a) fv).
Proof.
  split; [apply ts_keys_NoDup|].
  split.
  { unfold ts.
    apply (sort_values_sorted
             (fun a b : Timestamp * string * Z => ts_leb (fst (fst a)) (fst (fst b)))).
    - intros x y. apply ts_leb_total.
    - intros x y z. apply ts_leb_trans. }
  intros d a v. unfold ts. rewrite sort_values_In.
  rewrite (groupby_sum_rows (pair_compare ts_compare String.compare)
             (pair_eqb ts_eqb String.eqb) ts_key_order).
  - rewrite (filter_ext _ (in_ts_group d a)).
    + split; intros [(r & Hin & Hk) Hv]; (split; [|exact Hv]); exists r;
        (split; [exact Hin|]); apply ts_key_Some; exact Hk.
    + intros r. unfold ts_key, in_ts_group. destruct (Date r); reflexivity.
  - apply pair_compare_antisym; [apply ts_compare_antisym | apply String_as_OT.cmp_antisym].
  - apply pair_compare_trans;
      [apply ts_compare_eq | apply ts_compare_antisym | apply ts_compare_trans
       | apply string_compare_trans].
  - apply pair_eqb_eq; [apply ts_eqb_eq | apply String.eqb_eq].
Qed.

Lemma heat_In_iff (fv : DataFrame) (y : Z) (a : string) (v : Z) :
  In ((y, a), v) (heat fv)
  <-> (exists r, In r fv /\ Year r = y /\ Agegroup_pretty r = a)
      /\ v = total_deaths
               (filter (fun r => (Year r =? y) && String.eqb (Agegroup_pretty r) a)
                       fv).
Proof.
  unfold heat.
  rewrite (groupby_sum_rows (pair_compare Z.compare String.compare)
             (pair_eqb Z.eqb String.eqb) heat_key_order).
  - split; intros [(r & Hin & Hk) Hv]; (split; [|exact Hv]); exists r;
      (split; [exact Hin|]).
    + unfold heat_key in Hk. injection Hk as -> ->. auto.
    + destruct Hk as [<- <-]. reflexivity.
  - apply pair_compare_antisym; [apply Z_compare_antisym | apply String_as_OT.cmp_antisym].
  - apply pair_compare_trans;
      [apply Z.compare_eq | apply Z_compare_antisym | apply Z_compare_trans
       | apply string_compare_trans].
  - apply pair_eqb_eq; [apply Z.eqb_eq | apply String.eqb_eq].
Qed.

(** X3.  Heatmap, long format: one row per (year, age label) present in the
    view, each holding the sum of deaths over the rows of that year and
    label; no row of the view is left out, so the cells add up to
    [total_deaths]. *)
Theorem heat_rows (fv : DataFrame) :
  NoDup (map fst (heat fv))
  /\ col_sum (map snd (heat fv)) = total_deaths fv
  /\ forall y a v,
       In ((y, a), v) (heat fv)
       <-> (exists r, In r fv /\ Year r = y /\ Agegroup_pretty r = a)
           /\ v = total_deaths
                    (filter (fun r => (Year r =? y) && String.eqb (Agegroup_pretty r) a)
                            fv).
Proof.
  split; [apply heat_keys_NoDup|].
  split.
  { unfold heat. rewrite groupby_sum_col_sum. f_equal.
    apply mask_all. reflexivity. }
  apply heat_In_iff.
Qed.

(** ** The most affected age group *)

Lemma age_summary_rows (fv : DataFrame) (a : string) (v : Z) :
  In (a, v) (age_summary fv)
  <-> (exists r, In r fv /\ Agegroup_pretty r = a)
      /\ v = total_deaths (filter (fun r => String.eqb (Agegroup_pretty r) a) fv).
Proof.
  unfold age_summary. rewrite sort_values_In.
  rewrite (groupby_sum_rows String.compare String.eqb String.compare_eq_iff
             String_as_OT.cmp_antisym string_compare_trans String.eqb_eq).
  unfold age_key. simpl.
  split; intros [(r & Hin & Hk) Hv]; (split; [|exact Hv]); exists r;
    (split; [exact Hin|]); congruence.
Qed.

Lemma age_summary_nil_iff (fv : DataFrame) : age_summary fv = [] <-> fv = [].
Proof.
  split; [|intros ->; reflexivity].
  destruct fv as [|r fv]; [reflexivity|]. intros H. exfalso.
  assert (Hin : In (Agegroup_pretty r,
                    total_deaths (filter (fun r' => String.eqb (Agegroup_pretty r')
                                                               (Agegroup_pretty r))
                                         (r :: fv)))
                   (age_summary (r :: fv))).
  { apply age_summary_rows. split; [|reflexivity]. exists r. split; [left|]; reflexivity. }
  rewrite H in Hin. exact Hin.
Qed.

(** X4.  Position 0 of the age summary is out of range exactly when the
    view is empty: the emptiness check is what keeps [age_summary.index[0]]
    from raising. *)
Theorem top_agegroup_undefined_iff_empty (fv : DataFrame) :
  top_agegroup fv = None <-> fv = [].
Proof.
  rewrite <- age_summary_nil_iff. unfold top_agegroup.
  destruct (age_summary fv); simpl; split; congruence.
Qed.

(** X5.  In a run that goes past the emptiness check the most affected age
    group is defined: it is the label of some row of the view, the figure
    shown with it is the sum of deaths over the rows with that label, and no
    age label of the view has a larger sum. *)
Theorem top_agegroup_is_largest
        (s : Script) (df : DataFrame) (f : FilterSpec) (fv : DataFrame) :
  run s df f = Continued fv ->
  exists a v,
    top_agegroup fv = Some a
    /\ top_age_deaths fv = Some v
    /\ (exists r, In r fv /\ Agegroup_pretty r = a)
    /\ v = total_deaths (filter (fun r => String.eqb (Agegroup_pretty r) a) fv)
    /\ forall r, In r fv ->
         total_deaths
           (filter (fun r' => String.eqb (Agegroup_pretty r') (Agegroup_pretty r)) fv)
         <= v.
Proof.
  intros Hrun. apply run_Continued in Hrun. destruct Hrun as [_ Hne].
  unfold top_agegroup, top_age_deaths.
  destruct (hd_error (age_summary fv)) as [[a v]|] eqn:Hhd.
  - exists a, v. split; [reflexivity|]. split; [reflexivity|].
    unfold age_summary in Hhd.
    apply (sort_values_hd (fun a b : string * Z => snd b <=? snd a)) in Hhd.
    + destruct Hhd as [Hin Hmax].
      assert (Hrow : In (a, v) (age_summary fv)).
      { unfold age_summary. apply sort_values_In, Hin. }
      apply age_summary_rows in Hrow. destruct Hrow as [Hex Hv].
      split; [exact Hex|]. split; [exact Hv|].
      intros r Hr.
      assert (Hr' : In (Agegroup_pretty r,
                        total_deaths
                          (filter (fun r' => String.eqb (Agegroup_pretty r')
                                                        (Agegroup_pretty r)) fv))
                       (age_summary fv)).
      { apply age_summary_rows. split; [eauto | reflexivity]. }
      unfold age_summary in Hr'. apply sort_values_In in Hr'.
      specialize (Hmax _ Hr'). simpl in Hmax. apply Z.leb_le, Hmax.
    + intros x y. apply Z_leb_total.
    + intros x y z H1 H2. eapply Z_leb_trans; eassumption.
  - exfalso. apply Hne. apply age_summary_nil_iff.
    destruct (age_summary fv); [reflexivity | discriminate].
Qed.

Lemma top_agegroup_is_largest_witness :
  run code_py sample_df sample_spec = Continued sample_df
  /\ exists a v,
       top_agegroup sample_df = Some a
       /\ top_age_deaths sample_df = Some v
       /\ (exists r, In r sample_df /\ Agegroup_pretty r = a)
       /\ v = total_deaths
                (filter (fun r => String.eqb (Agegroup_pretty r) a) sample_df)
       /\ forall r, In r sample_df ->
            total_deaths
              (filter (fun r' => String.eqb (Agegroup_pretty r') (Agegroup_pretty r))
                      sample_df)
            <= v.
Proof.
  split; [reflexivity|].
  apply (top_agegroup_is_largest code_py sample_df sample_spec sample_df).
  reflexivity.
Defined.

(** ** Country totals and the map *)

Lemma country_groups_rows (fv : DataFrame) (name : string) (v : Z) :
  In (name, v) (groupby_sum String.compare Country fv)
  <-> (exists r, In r fv /\ Country r = Some name)
      /\ v = total_deaths (filter (fun r => eq_label (Country r) name) fv).
Proof.
  rewrite (groupby_sum_rows String.compare String.eqb String.compare_eq_iff
             String_as_OT.cmp_antisym string_compare_trans String.eqb_eq).
  rewrite (filter_ext _ (fun r => eq_label (Country r) name)); [reflexivity|].
  intros r. apply opt_eqb_label.
Qed.

Lemma map_data_In (fv : DataFrame) (c : option string) (v : Z) :
  In (c, v) (map_data fv)
  <-> exists name, c = Some name /\ name <> "Unknown"%string
                   /\ In (name, v) (groupby_sum String.compare Country fv).
Proof.
  unfold map_data. rewrite !filter_In, in_map_iff. simpl. split.
  - intros [[([name v'] & [= <- <-] & Hin) _] Hne]. simpl in *.
    exists name. split; [reflexivity|]. split; [|exact Hin].
    unfold ne_label in Hne. simpl in Hne.
    apply negb_true_iff, String.eqb_neq in Hne. exact Hne.
  - intros (name & -> & Hne & Hin). split; [split|].
    + exists (name, v). auto.
    + reflexivity.
    + unfold ne_label. simpl. apply negb_true_iff, String.eqb_neq, Hne.
Qed.

Lemma map_data_In_iff (fv : DataFrame) (c : option string) (v : Z) :
  In (c, v) (map_data fv)
  <-> exists name,
        c = Some name /\ name <> "Unknown"%string
        /\ (exists r, In r fv /\ Country r = Some name)
        /\ v = total_deaths (filter (fun r => eq_label (Country r) name) fv).
Proof.
  rewrite map_data_In.
  split; intros (name & Hc & Hne & H); exists name;
    (split; [exact Hc|]); (split; [exact Hne|]).
  - apply country_groups_rows in H. exact H.
  - apply country_groups_rows. exact H.
Qed.

(** X6.  Country Totals: one row per named country of the view other than
    Unknown, holding the sum of deaths over the rows of that country; a
    country is listed exactly when it is named on some row of the view and is
    not Unknown. *)
Theorem map_data_rows (fv : DataFrame) :
  NoDup (map fst (map_data fv))
  /\ forall c v,
       In (c, v) (map_data fv)
       <-> exists name,
             c = Some name /\ name <> "Unknown"%string
             /\ (exists r, In r fv /\ Country r = Some name)
             /\ v = total_deaths (filter (fun r => eq_label (Country r) name) fv).
Proof. split; [apply map_data_keys_NoDup | apply map_data_In_iff]. Qed.

(** X7.  The warning replaces the map exactly when every row of the view
    has a null country or the country Unknown. *)
Theorem map_warning_iff (fv : DataFrame) :
  map_warning fv = true
  <-> forall r, In r fv -> Country r = None \/ Country r = Some "Unknown"%string.
Proof.
  unfold map_warning. split.
  - intros Hw r Hr. destruct (Country r) as [name|] eqn:Hc; [|left; reflexivity].
    right. f_equal. destruct (string_dec name "Unknown") as [-> | Hne]; [reflexivity|].
    exfalso.
    assert (Hin : In (Some name,
                      total_deaths (filter (fun r' => eq_label (Country r') name) fv))
                     (map_data fv)).
    { apply map_data_In_iff. exists name. repeat split; eauto. }
    destruct (map_data fv); [exact Hin | discriminate].
  - intros Hall. destruct (map_data fv) as [|[c v] t] eqn:E; [reflexivity|].
    exfalso.
    assert (Hin : In (c, v) (map_data fv)) by (rewrite E; left; reflexivity).
    apply map_data_In_iff in Hin.
    destruct Hin as (name & _ & Hne & (r & Hr & Hc) & _).
    destruct (Hall r Hr) as [H | H]; congruence.
Qed.

Lemma exact_sum_split (p q : Row -> bool) (fv : DataFrame) :
  exact_sum (map Deaths (filter p fv))
  = exact_sum (map Deaths (filter (fun r => p r && q r) fv))
    + exact_sum (map Deaths (filter (fun r => p r && negb (q r)) fv)).
Proof.
  induction fv as [|r fv IH]; simpl; [reflexivity|].
  destruct (p r), (q r); simpl; lia.
Qed.

Lemma exact_sum_without_key (k : string) (g : list (string * Z)) :
  exact_sum (map snd g)
  = exact_sum (map snd (filter (fun e => negb (String.eqb (fst e) k)) g))
    + exact_sum (map snd (filter (fun e => String.eqb (fst e) k) g)).
Proof.
  induction g as [|[k' v'] g IH]; simpl; [reflexivity|].
  destruct (String.eqb k' k); simpl; lia.
Qed.

(** X8.  Country Totals add up to the deaths of the rows of the view whose
    country is named and is not Unknown; the deaths missing from the map
    against [total_deaths] are those of the other rows. *)
Theorem map_data_col_sum (fv : DataFrame) :
  col_sum (map snd (map_data fv))
  = total_deaths
      (filter (fun r => notna (Country r) && ne_label (Country r) "Unknown") fv).
Proof.
  unfold map_data.
  assert (E : forall g : list (string * Z),
             map snd
               (filter (fun e : option string * Z => ne_label (fst e) "Unknown")
                  (filter (fun e : option string * Z => notna (fst e))
                     (map (fun e : string * Z => (Some (fst e), snd e)) g)))
             = map snd (filter (fun e => negb (String.eqb (fst e) "Unknown")) g)).
  { induction g as [|[k v] g IH]; simpl; [reflexivity|].
    unfold ne_label at 1. simpl.
    destruct (String.eqb k "Unknown"); simpl; rewrite IH; reflexivity. }
  rewrite E. apply col_sum_of_cong.
  pose proof (groupby_fold_exact String.compare Country fv []) as [j1 H1].
  pose proof (groupby_fold_exact_total String.compare String.eqb
                String.compare_eq_iff Country "Unknown"%string fv []) as [j2 H2].
  fold (groupby_sum String.compare Country fv) in H1, H2.
  pose proof (exact_sum_without_key "Unknown" (groupby_sum String.compare Country fv))
    as H3.
  pose proof (exact_sum_split (fun r => notna (Country r))
                (fun r => ne_label (Country r) "Unknown") fv) as H4.
  assert (F : forall r,
             notna (Country r) && negb (ne_label (Country r) "Unknown")
             = opt_eqb String.eqb (Country r) (Some "Unknown"%string)).
  { intros r. unfold ne_label. destruct (Country r); simpl;
      [apply negb_involutive | reflexivity]. }
  rewrite (filter_ext _ _ F) in H4.
  simpl in H1, H2. exists (j1 - j2). lia.
Qed.

(** ** The heatmap grid *)

Section Unique.
Context {A : Type} (eqb : A -> A -> bool).
Hypothesis eqb_eq : forall x y, eqb x y = true <-> x = y.

Lemma eqb_false_iff (x y : A) : eqb x y = false <-> x <> y.
Proof.
  split.
  - intros H E. apply eqb_eq in E. congruence.
  - intros H. destruct (eqb x y) eqn:E; [|reflexivity].
    apply eqb_eq in E. contradiction.
Qed.

Lemma unique_by_In (x : A) (l : list A) : In x (unique_by eqb l) <-> In x l.
Proof.
  induction l as [|y l IH]; simpl; [reflexivity|].
  rewrite filter_In, IH, negb_true_iff, eqb_false_iff.
  destruct (eqb x y) eqn:E.
  - apply eqb_eq in E. subst. tauto.
  - apply eqb_false_iff in E. split; [tauto|]. intros [H | H]; [congruence | tauto].
Qed.

Lemma unique_by_NoDup (l : list A) : NoDup (unique_by eqb l).
Proof.
  induction l as [|y l IH]; simpl; constructor.
  - rewrite filter_In, negb_true_iff, eqb_false_iff. tauto.
  - apply NoDup_filter, IH.
Qed.

Lemma duplicated_NoDup (l : list A) : NoDup l -> duplicated eqb l = false.
Proof.
  induction 1 as [|x l Hx _ IH]; simpl; [reflexivity|].
  rewrite IH, orb_false_r.
  destruct (existsb (eqb x) l) eqn:E; [|reflexivity].
  apply existsb_exists in E. destruct E as (y & Hy & E).
  apply eqb_eq in E. subst. contradiction.
Qed.
End Unique.

Lemma unique_unique_by (l : list string) : unique l = unique_by String.eqb l.
Proof. induction l as [|x l IH]; simpl; [reflexivity | rewrite IH; reflexivity]. Qed.

Lemma cell_lookup_Some (h : list ((Z * string) * Z)) (a : string) (y v : Z) :
  cell_lookup h a y = Some v -> In ((y, a), v) h.
Proof.
  induction h as [|[[y' a'] v'] h IH]; simpl; [discriminate|].
  destruct ((y' =? y) && String.eqb a' a) eqn:E.
  - apply andb_true_iff in E. destruct E as [Ey Ea].
    apply Z.eqb_eq in Ey. apply String.eqb_eq in Ea. intros [= ->]. left. congruence.
  - intros H. right. apply IH, H.
Qed.

Lemma cell_lookup_None (h : list ((Z * string) * Z)) (a : string) (y : Z) :
  cell_lookup h a y = None -> ~ In (y, a) (map fst h).
Proof.
  induction h as [|[[y' a'] v'] h IH]; simpl; [tauto|].
  destruct ((y' =? y) && String.eqb a' a) eqn:E; [discriminate|].
  intros H [[= -> ->] | Hin]; [|exact (IH H Hin)].
  rewrite Z.eqb_refl, String.eqb_refl in E. discriminate.
Qed.

(** A cell read from the long frame is the deaths of that age label in that
    year, or nothing when the view has no such row. *)
Lemma cell_lookup_heat (fv : DataFrame) (a : string) (y : Z) :
  cell_lookup (heat fv) a y = heat_cell fv a y.
Proof.
  unfold heat_cell.
  destruct (cell_lookup (heat fv) a y) as [v|] eqn:E.
  - apply cell_lookup_Some, heat_In_iff in E.
    destruct E as [(r & Hin & Hy & Ha) ->].
    destruct (filter _ fv) as [|r0 rows] eqn:F; [|reflexivity].
    exfalso.
    assert (Hr : In r (filter (fun r => (Year r =? y) && String.eqb (Agegroup_pretty r) a)
                              fv)).
    { apply filter_In. split; [exact Hin|].
      rewrite Hy, Ha, Z.eqb_refl, String.eqb_refl. reflexivity. }
    rewrite F in Hr. exact Hr.
  - apply cell_lookup_None in E.
    destruct (filter _ fv) as [|r0 rows] eqn:F; [reflexivity|].
    exfalso. apply E.
    assert (Hr : In r0 (filter (fun r => (Year r =? y) && String.eqb (Agegroup_pretty r) a)
                               fv)) by (rewrite F; left; reflexivity).
    apply filter_In in Hr. destruct Hr as [Hin Hp].
    apply andb_true_iff in Hp. destruct Hp as [Hy Ha].
    apply Z.eqb_eq in Hy. apply String.eqb_eq in Ha.
    apply in_map_iff.
    exists ((y, a), total_deaths
                      (filter (fun r => (Year r =? y) && String.eqb (Agegroup_pretty r) a)
                              fv)).
    split; [reflexivity|]. apply heat_In_iff. split; [eauto | reflexivity].
Qed.

Lemma heat_keys_In (fv : DataFrame) (y : Z) (a : string) :
  In (y, a) (map fst (heat fv))
  <-> exists r, In r fv /\ Year r = y /\ Agegroup_pretty r = a.
Proof.
  unfold heat. rewrite (groupby_sum_keys _ heat_key_order).
  split; intros (r & Hin & H); exists r; (split; [exact Hin|]).
  - unfold heat_key in H. injection H as -> ->. auto.
  - destruct H as [<- <-]. reflexivity.
Qed.

(** X9.  The pivot of the heatmap never meets a repeated (label, year) pair,
    so it cannot raise.  Its grid has one row per age label of the view and
    one column per year of the view, both ascending and without repeats; the
    cell of a label and a year holds the deaths of the rows with that label
    and year, and is empty when the view has no such row. *)
Theorem heat_pivot_grid (fv : DataFrame) :
  exists p,
    pivot (heat fv) = Some p
    /\ (forall a, In a (pivot_index p) <-> exists r, In r fv /\ Agegroup_pretty r = a)
    /\ (forall y, In y (pivot_columns p) <-> exists r, In r fv /\ Year r = y)
    /\ NoDup (pivot_index p) /\ NoDup (pivot_columns p)
    /\ StronglySorted (fun a b => String.leb a b = true) (pivot_index p)
    /\ StronglySorted Z.le (pivot_columns p)
    /\ pivot_values p
       = map (fun a => map (fun y => heat_cell fv a y) (pivot_columns p))
             (pivot_index p).
Proof.
  unfold pivot.
  rewrite (duplicated_NoDup _ (pair_eqb_eq _ _ Z.eqb_eq String.eqb_eq) _
             (heat_keys_NoDup fv)).
  eexists. split; [reflexivity|]. simpl.
  split; [|split]; [| |split; [|split; [|split; [|split]]]].
  - intros a. rewrite sort_values_In, unique_In, in_map_iff. split.
    + intros ([[y a'] v] & Ha & Hin). simpl in Ha. subst a'.
      assert (Hk : In (y, a) (map fst (heat fv))).
      { apply in_map_iff. exists ((y, a), v). auto. }
      apply heat_keys_In in Hk. destruct Hk as (r & Hr & _ & Hl). eauto.
    + intros (r & Hr & Ha).
      assert (Hk : In (Year r, a) (map fst (heat fv))).
      { apply heat_keys_In. eauto. }
      apply in_map_iff in Hk. destruct Hk as ([[y' a'] v] & Hk & Hin).
      simpl in Hk. injection Hk as -> ->. exists ((Year r, a), v). auto.
  - intros y. rewrite sort_values_In, (unique_by_In _ Z.eqb_eq), in_map_iff. split.
    + intros ([[y' a] v] & Hy & Hin). simpl in Hy. subst y'.
      assert (Hk : In (y, a) (map fst (heat fv))).
      { apply in_map_iff. exists ((y, a), v). auto. }
      apply heat_keys_In in Hk. destruct Hk as (r & Hr & Hy & _). eauto.
    + intros (r & Hr & Hy).
      assert (Hk : In (y, Agegroup_pretty r) (map fst (heat fv))).
      { apply heat_keys_In. eauto. }
      apply in_map_iff in Hk. destruct Hk as ([[y' a'] v] & Hk & Hin).
      simpl in Hk. injection Hk as -> ->. exists ((y, Agegroup_pretty r), v). auto.
  - eapply Permutation_NoDup; [apply Permutation_sym, sort_values_perm|].
    rewrite unique_unique_by. apply (unique_by_NoDup _ String.eqb_eq).
  - eapply Permutation_NoDup; [apply Permutation_sym, sort_values_perm|].
    apply (unique_by_NoDup _ Z.eqb_eq).
  - apply sort_values_sorted; [apply string_leb_total | apply string_leb_trans].
  - eapply StronglySorted_weaken; [|apply (sort_values_sorted Z.leb)].
    + intros a b H. apply Z.leb_le, H.
    + apply Z_leb_total.
    + apply Z_leb_trans.
  - apply map_ext. intros a. apply map_ext. intros y. apply cell_lookup_heat.
Qed.

(** ** The mode of the time series *)

Lemma fold_max_ge_all (ns : list nat) (n : nat) :
  In n ns -> (n <= fold_right Nat.max 0 ns)%nat.
Proof.
  induction ns as [|m ns IH]; simpl; [tauto|].
  intros [-> | H]; [lia | specialize (IH H); lia].
Qed.

Lemma fold_max_attained (ns : list nat) :
  ns <> [] -> In (fold_right Nat.max 0%nat ns) ns.
Proof.
  induction ns as [|m ns IH]; [congruence|]. intros _. simpl.
  destruct ns as [|m' ns'].
  - left. simpl. lia.
  - destruct (Nat.max_spec m (fold_right Nat.max 0%nat (m' :: ns'))) as [[_ E] | [_ E]];
      rewrite E; [right; apply IH; discriminate | left; reflexivity].
Qed.

Lemma mode_values_In (l : list Z) (v : Z) :
  In v (mode_values l)
  <-> In v l /\ value_count l v = fold_right Nat.max 0%nat (map (value_count l) l).
Proof.
  unfold mode_values. rewrite sort_values_In, nodup_In, filter_In, Nat.eqb_eq.
  reflexivity.
Qed.

Lemma mode_values_nil_iff (l : list Z) : mode_values l = [] <-> l = [].
Proof.
  split; [|intros ->; reflexivity].
  destruct l as [|x l]; [reflexivity|]. intros H. exfalso.
  assert (Hne : map (value_count (x :: l)) (x :: l) <> []) by discriminate.
  apply fold_max_attained, in_map_iff in Hne. destruct Hne as (v & Hv & Hin).
  assert (Hm : In v (mode_values (x :: l))) by (apply mode_values_In; auto).
  rewrite H in Hm. exact Hm.
Qed.

(** The first mode is a value of the series that no value outnumbers, and
    the least of the values that occur as often. *)
Lemma first_mode (l : list Z) (v : Z) :
  hd_error (mode_values l) = Some v ->
  In v l
  /\ (forall x, (value_count l x <= value_count l v)%nat)
  /\ (forall x, In x l -> value_count l x = value_count l v -> v <= x).
Proof.
  intros H.
  assert (Hin : In v (mode_values l)).
  { destruct (mode_values l); [discriminate|]. simpl in H. injection H as ->.
    left. reflexivity. }
  unfold mode_values in H.
  apply (sort_values_hd Z.leb Z_leb_total Z_leb_trans) in H. destruct H as [_ Hmin].
  apply mode_values_In in Hin. destruct Hin as [Hv Htop].
  split; [exact Hv|]. split.
  - intros x. rewrite Htop.
    destruct (in_dec Z.eq_dec x l) as [Hx | Hx].
    + apply fold_max_ge_all, in_map, Hx.
    + unfold value_count at 1. rewrite (proj1 (count_occ_not_In Z.eq_dec l x) Hx). lia.
  - intros x Hx Hc. apply Z.leb_le, Hmin.
    apply nodup_In, filter_In. split; [exact Hx|].
    apply Nat.eqb_eq. congruence.
Qed.

Lemma ts_nil_iff (fv : DataFrame) : ts fv = [] <-> forall r, In r fv -> Date r = None.
Proof.
  unfold ts. rewrite sort_values_nil_iff. split.
  - intros H r Hr. destruct (Date r) as [d|] eqn:Hd; [|reflexivity].
    exfalso.
    assert (Hk : In (d, Agegroup_pretty r)
                    (map fst (groupby_sum (pair_compare ts_compare String.compare)
                                          ts_key fv))).
    { apply (groupby_sum_keys _ ts_key_order). exists r. split; [exact Hr|].
      apply ts_key_Some. auto. }
    rewrite H in Hk. exact Hk.
  - intros H.
    destruct (groupby_sum (pair_compare ts_compare String.compare) ts_key fv)
      as [|[[d a] v] g] eqn:E; [reflexivity|].
    exfalso.
    assert (Hk : In (d, a)
                    (map fst (groupby_sum (pair_compare ts_compare String.compare)
                                          ts_key fv))).
    { rewrite E. left. reflexivity. }
    apply (groupby_sum_keys _ ts_key_order) in Hk. destruct Hk as (r & Hr & Hk).
    apply ts_key_Some in Hk. rewrite (H r Hr) in Hk. destruct Hk; discriminate.
Qed.

Lemma mode_deaths_None_iff (fv : DataFrame) :
  mode_deaths fv = None <-> forall r, In r fv -> Date r = None.
Proof.
  rewrite <- ts_nil_iff. unfold mode_deaths.
  destruct (mode_values (map snd (ts fv))) as [|v t] eqn:E; simpl.
  - apply (proj1 (mode_values_nil_iff _)) in E. split; [intros _|reflexivity].
    destruct (ts fv); [reflexivity | simpl in E; discriminate E].
  - split; [discriminate|]. intros H. rewrite H in E. discriminate E.
Qed.

(** X11.  When the mode statistic is defined it is one of the time-series
    sums, no sum occurs more often among the time-series rows, and among the
    sums that occur as often it is the smallest. *)
Theorem mode_deaths_most_frequent (fv : DataFrame) (v : Z) :
  mode_deaths fv = Some v ->
  In v (map snd (ts fv))
  /\ (forall x, (value_count (map snd (ts fv)) x <= value_count (map snd (ts fv)) v)%nat)
  /\ (forall x, In x (map snd (ts fv)) ->
                value_count (map snd (ts fv)) x = value_count (map snd (ts fv)) v ->
                v <= x).
Proof. apply first_mode. Qed.

Lemma mode_deaths_most_frequent_witness :
  mode_deaths sample_df = Some 0
  /\ In 0 (map snd (ts sample_df))
  /\ (forall x, (value_count (map snd (ts sample_df)) x
                 <= value_count (map snd (ts sample_df)) 0)%nat)
  /\ (forall x, In x (map snd (ts sample_df)) ->
                value_count (map snd (ts sample_df)) x
                = value_count (map snd (ts sample_df)) 0 ->
                0 <= x).
Proof.
  split; [reflexivity|].
  apply (mode_deaths_most_frequent sample_df 0). reflexivity.
Defined.

(** ** The counters above the map *)

Lemma dropna_In {A : Type} (x : A) (l : list (option A)) :
  In x (dropna l) <-> In (Some x) l.
Proof.
  induction l as [|[y|] l IH]; simpl; [tauto| |].
  - rewrite IH. split; intros [H | H]; auto; left; congruence.
  - rewrite IH. split; [auto | intros [H | H]; [discriminate | exact H]].
Qed.

Lemma NoDup_same_length {A : Type} (l1 l2 : list A) :
  NoDup l1 -> NoDup l2 -> (forall x, In x l1 <-> In x l2) ->
  List.length l1 = List.length l2.
Proof.
  intros H1 H2 H. apply Permutation_length, NoDup_Permutation; assumption.
Qed.

Lemma length_without_key (k : string) (g : list (string * Z)) :
  NoDup (map fst g) ->
  (List.length (filter (fun e => negb (String.eqb (fst e) k)) g)
   + (if existsb (fun e => String.eqb (fst e) k) g then 1 else 0))%nat
  = List.length g.
Proof.
  induction g as [|[k' v'] g IH]; simpl; intros Hnd; [reflexivity|].
  inversion Hnd as [|? ? Hk Hnd']; subst. specialize (IH Hnd').
  destruct (String.eqb k' k) eqn:E; simpl.
  - apply String.eqb_eq in E. subst k'.
    destruct (existsb (fun e => String.eqb (fst e) k) g) eqn:X.
    + exfalso. apply existsb_exists in X. destruct X as ([k2 v2] & Hin & Hk2).
      simpl in Hk2. apply String.eqb_eq in Hk2. subst k2.
      apply Hk, in_map_iff. exists (k, v2). auto.
    + lia.
  - lia.
Qed.

Lemma sorted_labels_In (col : Row -> option string) (df : DataFrame) (x : string) :
  In x (sorted_labels col df) <-> exists r, In r df /\ col r = Some x.
Proof.
  unfold sorted_labels. rewrite sort_values_In, unique_In, dropna_In, in_map_iff.
  split; intros (r & H1 & H2); eauto.
Qed.

(** X12.  The "unique countries" counter equals the number of rows of
    Country Totals, plus one when some row of the view is reported under
    Unknown: rows with a null country are in neither count. *)
Theorem nunique_countries_vs_map (fv : DataFrame) :
  nunique_countries fv
  = (List.length (map_data fv)
     + (if existsb (fun r => eq_label (Country r) "Unknown") fv then 1 else 0))%nat.
Proof.
  set (g := groupby_sum String.compare Country fv).
  assert (Hnd : NoDup (map fst g)).
  { apply groupby_sum_keys_NoDup;
      [apply String_as_OT.cmp_antisym | apply string_compare_trans]. }
  assert (Hlen : nunique_countries fv = List.length g).
  { unfold nunique_countries. rewrite <- (length_map fst g).
    apply NoDup_same_length.
    - rewrite unique_unique_by. apply (unique_by_NoDup _ String.eqb_eq).
    - exact Hnd.
    - intros x. rewrite unique_In, dropna_In, in_map_iff.
      unfold g. rewrite (groupby_sum_keys _ String.compare_eq_iff).
      split; intros (r & H1 & H2); eauto. }
  assert (Hmap : List.length (map_data fv)
                 = List.length (filter (fun e => negb (String.eqb (fst e) "Unknown")) g)).
  { unfold map_data. fold g. clear. induction g as [|[k v] g IH]; simpl; [reflexivity|].
    unfold ne_label at 1. simpl.
    destruct (String.eqb k "Unknown"); simpl; rewrite IH; reflexivity. }
  assert (Hex : existsb (fun r => eq_label (Country r) "Unknown") fv
                = existsb (fun e => String.eqb (fst e) "Unknown") g).
  { apply eq_true_iff_eq. rewrite !existsb_exists. split.
    - intros (r & Hr & Hc). destruct (Country r) as [name|] eqn:Hn; [|discriminate].
      simpl in Hc. apply String.eqb_eq in Hc. subst name.
      assert (Hk : In "Unknown"%string (map fst g)).
      { unfold g. apply (groupby_sum_keys _ String.compare_eq_iff). eauto. }
      apply in_map_iff in Hk. destruct Hk as (e & He & Hin).
      exists e. split; [exact Hin|]. rewrite He. reflexivity.
    - intros (e & Hin & He). apply String.eqb_eq in He.
      assert (Hk : In "Unknown"%string (map fst g)).
      { apply in_map_iff. exists e. auto. }
      unfold g in Hk. apply (groupby_sum_keys _ String.compare_eq_iff) in Hk.
      destruct Hk as (r & Hr & Hc). exists r. split; [exact Hr|].
      rewrite Hc. reflexivity. }
  rewrite Hlen, Hmap, Hex. symmetry. apply length_without_key, Hnd.
Qed.

(** ** The raw table *)

Lemma year_month_leb_iff (a b : RawRow) :
  year_month_leb a b = true
  <-> raw_Year a < raw_Year b
      \/ (raw_Year a = raw_Year b /\ raw_Month a <= raw_Month b).
Proof.
  unfold year_month_leb.
  rewrite orb_true_iff, andb_true_iff, Z.ltb_lt, Z.eqb_eq, Z.leb_le. reflexivity.
Qed.

(** X13.  The raw table shows the rows of the view, each once, in
    ascending order of year and, within a year, of month. *)
Theorem raw_table_sorted (s : Script) (fv : DataFrame) :
  Permutation (raw_table s fv) (map (raw_columns s) fv)
  /\ StronglySorted
       (fun a b => raw_Year a < raw_Year b
                   \/ (raw_Year a = raw_Year b /\ raw_Month a <= raw_Month b))
       (raw_table s fv).
Proof.
  split; [apply sort_values_perm|].
  eapply StronglySorted_weaken; [|apply (sort_values_sorted year_month_leb)].
  - intros a b. apply year_month_leb_iff.
  - intros x y H.
    apply year_month_leb_iff.
    assert (N : ~ (raw_Year x < raw_Year y
                   \/ (raw_Year x = raw_Year y /\ raw_Month x <= raw_Month y))).
    { intros C. apply year_month_leb_iff in C. congruence. }
    lia.
  - intros x y z. rewrite !year_month_leb_iff. lia.
Qed.

(** ** The sidebar *)

Lemma sorted_labels_NoDup (col : Row -> option string) (df : DataFrame) :
  NoDup (sorted_labels col df).
Proof.
  unfold sorted_labels.
  eapply Permutation_NoDup; [apply Permutation_sym, sort_values_perm|].
  rewrite unique_unique_by. apply (unique_by_NoDup _ String.eqb_eq).
Qed.

Lemma sorted_labels_sorted (col : Row -> option string) (df : DataFrame) :
  StronglySorted (fun a b => String.leb a b = true) (sorted_labels col df).
Proof.
  unfold sorted_labels.
  apply sort_values_sorted; [apply string_leb_total | apply string_leb_trans].
Qed.

(** X14.  The age-group options are exactly the age labels that occur in
    the dataset, each once, in ascending order. *)
Theorem agegroups_all_options (df : DataFrame) :
  (forall a, In a (agegroups_all df) <-> exists r, In r df /\ Agegroup_pretty r = a)
  /\ NoDup (agegroups_all df)
  /\ StronglySorted (fun a b => String.leb a b = true) (agegroups_all df).
Proof.
  unfold agegroups_all. split; [|split].
  - intros a. rewrite sort_values_In, unique_In, in_map_iff.
    split; intros (r & H1 & H2); eauto.
  - eapply Permutation_NoDup; [apply Permutation_sym, sort_values_perm|].
    rewrite unique_unique_by. apply (unique_by_NoDup _ String.eqb_eq).
  - apply sort_values_sorted; [apply string_leb_total | apply string_leb_trans].
Qed.

(** X15.  The region and the income options start with the sentinel entry
    of their select box; after it come exactly the non-null values of the
    column in the dataset, each once, in ascending order.  The country
    options are exactly the non-null values of the country column, each
    once, in ascending order.  A null cell yields no option.  A select box
    lists a value twice exactly when its sentinel is itself a value of the
    column. *)
Theorem select_options (s : Script) (df : DataFrame) :
  (hd_error (regions s df) = Some "All regions"%string
   /\ hd_error (income_levels df) = Some "All income levels"%string)
  /\ (forall x, In x (tl (regions s df))
                <-> exists r, In r df /\ region_column s r = Some x)
  /\ (forall x, In x (tl (income_levels df))
                <-> exists r, In r df /\ Wb_income r = Some x)
  /\ (forall x, In x (countries_all df) <-> exists r, In r df /\ Country r = Some x)
  /\ (NoDup (tl (regions s df)) /\ NoDup (tl (income_levels df))
      /\ NoDup (countries_all df))
  /\ (StronglySorted (fun a b => String.leb a b = true) (tl (regions s df))
      /\ StronglySorted (fun a b => String.leb a b = true) (tl (income_levels df))
      /\ StronglySorted (fun a b => String.leb a b = true) (countries_all df))
  /\ (NoDup (regions s df)
      <-> ~ exists r, In r df /\ region_column s r = Some "All regions"%string)
  /\ (NoDup (income_levels df)
      <-> ~ exists r, In r df /\ Wb_income r = Some "All income levels"%string).
Proof.
  unfold regions, income_levels, countries_all. simpl.
  split; [split; reflexivity|].
  split; [intros x; apply sorted_labels_In|].
  split; [intros x; apply sorted_labels_In|].
  split; [intros x; apply sorted_labels_In|].
  split; [repeat split; apply sorted_labels_NoDup|].
  split; [repeat split; apply sorted_labels_sorted|].
  split.
  - rewrite <- sorted_labels_In. split.
    + intros H. inversion H. assumption.
    + intros H. constructor; [exact H | apply sorted_labels_NoDup].
  - rewrite <- sorted_labels_In. split.
    + intros H. inversion H. assumption.
    + intros H. constructor; [exact H | apply sorted_labels_NoDup].
Qed.

Lemma col_min_attained (l : list Z) (lo : Z) : col_min l = Some lo -> In lo l.
Proof.
  destruct l as [|x l]; simpl; [discriminate|]. intros [= <-].
  revert x. induction l as [|y l IH]; intros x; simpl; [auto|].
  destruct (IH (Z.min x y)) as [H | H]; [|auto].
  rewrite <- H.
  destruct (Z.min_spec x y) as [[_ E] | [_ E]]; rewrite E; auto.
Qed.

Lemma col_max_attained (l : list Z) (hi : Z) : col_max l = Some hi -> In hi l.
Proof.
  destruct l as [|x l]; simpl; [discriminate|]. intros [= <-].
  revert x. induction l as [|y l IH]; intros x; simpl; [auto|].
  destruct (IH (Z.max x y)) as [H | H]; [|auto].
  rewrite <- H.
  destruct (Z.max_spec x y) as [[_ E] | [_ E]]; rewrite E; auto.
Qed.

(** X16.  On a dataset with at least one row the slider bounds are defined,
    each is the year of some row, and every row's year lies between them. *)
Theorem year_bounds (df : DataFrame) :
  df <> [] ->
  exists lo hi,
    year_min df = Some lo /\ year_max df = Some hi
    /\ lo <= hi
    /\ (exists r, In r df /\ Year r = lo)
    /\ (exists r, In r df /\ Year r = hi)
    /\ forall r, In r df -> lo <= Year r <= hi.
Proof.
  intros Hne. destruct df as [|r0 df]; [congruence|].
  destruct (year_min (r0 :: df)) as [lo|] eqn:Hlo; [|discriminate].
  destruct (year_max (r0 :: df)) as [hi|] eqn:Hhi; [|discriminate].
  exists lo, hi. split; [reflexivity|]. split; [reflexivity|].
  assert (Hall : forall r, In r (r0 :: df) -> lo <= Year r <= hi).
  { intros r Hr. split; [eapply year_min_le | eapply year_max_ge]; eassumption. }
  split; [specialize (Hall r0 (or_introl eq_refl)); lia|].
  split; [|split; [|exact Hall]].
  - apply col_min_attained, in_map_iff in Hlo. destruct Hlo as (r & H1 & H2). eauto.
  - apply col_max_attained, in_map_iff in Hhi. destruct Hhi as (r & H1 & H2). eauto.
Qed.

Lemma year_bounds_witness :
  exists lo hi,
    year_min sample_df = Some lo /\ year_max sample_df = Some hi
    /\ lo <= hi
    /\ (exists r, In r sample_df /\ Year r = lo)
    /\ (exists r, In r sample_df /\ Year r = hi)
    /\ forall r, In r sample_df -> lo <= Year r <= hi.
Proof. apply (year_bounds sample_df). discriminate. Defined.

Lemma default_spec_Some (df : DataFrame) (f : FilterSpec) :
  default_spec df = Some f ->
  exists lo hi,
    year_min df = Some lo /\ year_max df = Some hi /\ lo < hi
    /\ f = mkFilterSpec "All regions" "All income levels" []
                        (agegroups_all df) (lo, hi).
Proof.
  unfold default_spec.
  destruct (year_min df) as [lo|]; [|discriminate].
  destruct (year_max df) as [hi|]; [|discriminate].
  destruct (lo <? hi) eqn:E; [|discriminate].
  intros [= <-]. exists lo, hi. apply Z.ltb_lt in E. auto.
Qed.

(** The slider is built exactly when the dataset has rows of two different
    years. *)
Lemma default_spec_defined (df : DataFrame) :
  (exists r1 r2, In r1 df /\ In r2 df /\ Year r1 <> Year r2)
  <-> exists f, default_spec df = Some f.
Proof.
  split.
  - intros (r1 & r2 & H1 & H2 & Hne).
    unfold default_spec.
    destruct (year_min df) as [lo|] eqn:Hlo;
      [|destruct df; [contradiction | discriminate]].
    destruct (year_max df) as [hi|] eqn:Hhi;
      [|destruct df; [contradiction | discriminate]].
    pose proof (year_min_le df lo r1 Hlo H1).
    pose proof (year_min_le df lo r2 Hlo H2).
    pose proof (year_max_ge df hi r1 Hhi H1).
    pose proof (year_max_ge df hi r2 Hhi H2).
    rewrite (proj2 (Z.ltb_lt lo hi)) by lia. eauto.
  - intros (f & Hf).
    destruct (default_spec_Some df f Hf) as (lo & hi & Hlo & Hhi & Hlt & _).
    apply col_min_attained, in_map_iff in Hlo. destruct Hlo as (r1 & E1 & H1).
    apply col_max_attained, in_map_iff in Hhi. destruct Hhi as (r2 & E2 & H2).
    exists r1, r2. split; [exact H1|]. split; [exact H2|]. lia.
Qed.

(** X17.  The sidebar can be built, with every control on its default,
    exactly when the dataset has rows of two different years (with one
    year only, or no row, the year slider raises); and then, with the
    controls untouched, the run goes past the emptiness check with the
    whole dataset as its view. *)
Theorem default_run_shows_all (s : Script) (df : DataFrame) :
  ((exists r1 r2, In r1 df /\ In r2 df /\ Year r1 <> Year r2)
   <-> exists f, default_spec df = Some f)
  /\ (forall f, default_spec df = Some f -> run s df f = Continued df).
Proof.
  split; [apply default_spec_defined|].
  intros f Hf. unfold run. rewrite (filtered_default s df f Hf).
  destruct df; [discriminate Hf | reflexivity].
Qed.

Lemma default_run_shows_all_witness :
  default_spec sample_df = Some sample_spec
  /\ run covid_py sample_df sample_spec = Continued sample_df.
Proof.
  split; [reflexivity|].
  apply (proj2 (default_run_shows_all covid_py sample_df)). reflexivity.
Defined.

Lemma default_spec_passes (s : Script) (df : DataFrame) (f : FilterSpec) (r : Row) :
  default_spec df = Some f -> In r df ->
  region_ok s f r = true /\ income_ok f r = true /\ countries_ok f r = true
  /\ agegroups_ok f r = true /\ year_ok f r = true.
Proof.
  intros Hf Hr.
  assert (Hp : active_predicates s f r = true).
  { apply (filtered_In s df f r). rewrite (filtered_default s df f Hf). exact Hr. }
  unfold active_predicates in Hp. rewrite !andb_true_iff in Hp. tauto.
Qed.

Lemma default_spec_fields (df : DataFrame) (f : FilterSpec) :
  default_spec df = Some f ->
  region_selected f = "All regions"%string
  /\ income_selected f = "All income levels"%string
  /\ countries_selected f = [].
Proof.
  intros Hf. destruct (default_spec_Some df f Hf) as (lo & hi & _ & _ & _ & ->).
  auto.
Qed.

Lemma run_nonempty (s : Script) (df : DataFrame) (f : FilterSpec) (fv : DataFrame) :
  filtered s df f = fv -> fv <> [] -> run s df f = Continued fv.
Proof.
  intros <- Hne. unfold run. destruct (filtered s df f); [congruence | reflexivity].
Qed.

(** X18.  No option of the sidebar is dead: starting from the defaults,
    picking any listed region other than the sentinel, any listed income
    level other than the sentinel, or any non-empty choice of listed
    countries, takes the run past the emptiness check, with the rows of
    that region, income level or choice of countries as the view. *)
Theorem listed_options_have_rows (s : Script) (df : DataFrame) (f0 : FilterSpec) :
  default_spec df = Some f0 ->
  (forall region,
      In region (regions s df) -> region <> "All regions"%string ->
      run s df (pick_region f0 region)
      = Continued (filter (fun r => eq_label (region_column s r) region) df))
  /\ (forall income,
         In income (income_levels df) -> income <> "All income levels"%string ->
         run s df (pick_income f0 income)
         = Continued (filter (fun r => eq_label (Wb_income r) income) df))
  /\ (forall countries,
         countries <> [] -> incl countries (countries_all df) ->
         run s df (pick_countries f0 countries)
         = Continued (filter (fun r => isin (Country r) countries) df)).
Proof.
  intros Hf. destruct (default_spec_fields df f0 Hf) as (Hreg & Hinc & Hcty).
  split; [|split].
  - intros region Hin Hne.
    destruct Hin as [E | Hin]; [congruence|].
    apply sorted_labels_In in Hin. destruct Hin as (r0 & Hr0 & Hl0).
    apply run_nonempty.
    + rewrite filtered_one_mask. apply filter_ext_in. intros r Hr.
      destruct (default_spec_passes s df f0 r Hf Hr) as (_ & H2 & H3 & H4 & H5).
      unfold active_predicates. unfold region_ok at 1. simpl.
      change (income_ok (pick_region f0 region) r) with (income_ok f0 r).
      change (countries_ok (pick_region f0 region) r) with (countries_ok f0 r).
      change (agegroups_ok (pick_region f0 region) r) with (agegroups_ok f0 r).
      change (year_ok (pick_region f0 region) r) with (year_ok f0 r).
      rewrite H2, H3, H4, H5, (proj2 (String.eqb_neq _ _) Hne), !andb_true_r.
      reflexivity.
    + intros E.
      assert (H : In r0 (filter (fun r => eq_label (region_column s r) region) df)).
      { apply filter_In. split; [exact Hr0|]. rewrite Hl0. simpl. apply String.eqb_refl. }
      rewrite E in H. exact H.
  - intros income Hin Hne.
    destruct Hin as [E | Hin]; [congruence|].
    apply sorted_labels_In in Hin. destruct Hin as (r0 & Hr0 & Hl0).
    apply run_nonempty.
    + rewrite filtered_one_mask. apply filter_ext_in. intros r Hr.
      destruct (default_spec_passes s df f0 r Hf Hr) as (H1 & _ & H3 & H4 & H5).
      unfold active_predicates. unfold income_ok at 1. simpl.
      change (region_ok s (pick_income f0 income) r) with (region_ok s f0 r).
      change (countries_ok (pick_income f0 income) r) with (countries_ok f0 r).
      change (agegroups_ok (pick_income f0 income) r) with (agegroups_ok f0 r).
      change (year_ok (pick_income f0 income) r) with (year_ok f0 r).
      rewrite H1, H3, H4, H5, (proj2 (String.eqb_neq _ _) Hne), !andb_true_r.
      reflexivity.
    + intros E.
      assert (H : In r0 (filter (fun r => eq_label (Wb_income r) income) df)).
      { apply filter_In. split; [exact Hr0|]. rewrite Hl0. simpl. apply String.eqb_refl. }
      rewrite E in H. exact H.
  - intros countries Hne Hincl.
    destruct countries as [|c0 cs] eqn:Ec; [congruence|]. rewrite <- Ec in *.
    assert (Hc0 : In c0 countries) by (rewrite Ec; left; reflexivity).
    pose proof (Hincl c0 Hc0) as Hin.
    apply sorted_labels_In in Hin. destruct Hin as (r0 & Hr0 & Hl0).
    apply run_nonempty.
    + rewrite filtered_one_mask. apply filter_ext_in. intros r Hr.
      destruct (default_spec_passes s df f0 r Hf Hr) as (H1 & H2 & _ & H4 & H5).
      unfold active_predicates. unfold countries_ok at 1. simpl.
      change (region_ok s (pick_countries f0 countries) r) with (region_ok s f0 r).
      change (income_ok (pick_countries f0 countries) r) with (income_ok f0 r).
      change (agegroups_ok (pick_countries f0 countries) r) with (agegroups_ok f0 r).
      change (year_ok (pick_countries f0 countries) r) with (year_ok f0 r).
      rewrite H1, H2, H4, H5, !andb_true_r. rewrite Ec at 1. reflexivity.
    + intros E.
      assert (H : In r0 (filter (fun r => isin (Country r) countries) df)).
      { apply filter_In. split; [exact Hr0|]. rewrite Hl0. simpl.
        apply isin_str_In, Hc0. }
      rewrite E in H. exact H.
Qed.

Lemma listed_options_have_rows_witness :
  run code_py sample_df (pick_region sample_spec "European Region")
  = Continued (filter (fun r => eq_label (region_column code_py r) "European Region")
                      sample_df)
  /\ run code_py sample_df (pick_countries sample_spec ["US"%string])
     = Continued (filter (fun r => isin (Country r) ["US"%string]) sample_df).
Proof.
  destruct (listed_options_have_rows code_py sample_df sample_spec eq_refl)
    as (Hreg & _ & Hcty).
  split.
  - apply Hreg; [right; left; reflexivity | discriminate].
  - apply Hcty; [discriminate|].
    intros c [<- | []]. right. left. reflexivity.
Defined.

(** ** Laws of the filter *)

(** X19.  Filtering a view again with the selection that produced it
    changes nothing. *)
Theorem filtered_idempotent (s : Script) (df : DataFrame) (f : FilterSpec) :
  filtered s (filtered s df f) f = filtered s df f.
Proof.
  rewrite !filtered_one_mask, mask_twice. apply filter_ext. intros r.
  apply andb_diag.
Qed.

(** X20.  Two selections applied one after the other give the same view in
    either order: the rows that pass both. *)
Theorem filtered_commute (s : Script) (df : DataFrame) (f1 f2 : FilterSpec) :
  filtered s (filtered s df f1) f2 = filtered s (filtered s df f2) f1
  /\ filtered s (filtered s df f1) f2
     = filter (fun r => active_predicates s f1 r && active_predicates s f2 r) df.
Proof.
  rewrite !filtered_one_mask, !mask_twice. split; [|reflexivity].
  apply filter_ext. intros r. apply andb_comm.
Qed.

(** X21.  Rows are judged one by one: the view of two datasets put end to
    end is the two views put end to end. *)
Theorem filtered_app (s : Script) (df1 df2 : DataFrame) (f : FilterSpec) :
  filtered s (df1 ++ df2) f = filtered s df1 f ++ filtered s df2 f.
Proof. rewrite !filtered_one_mask. apply filter_app. Qed.

(** X22.  While no region is picked the two scripts build the same view,
    so they show the same KPIs, time series and heatmap. *)
Theorem scripts_agree_without_region (df : DataFrame) (f : FilterSpec) :
  region_selected f = "All regions"%string ->
  filtered code_py df f = filtered covid_py df f
  /\ run code_py df f = run covid_py df f.
Proof.
  intros H.
  assert (E : filtered code_py df f = filtered covid_py df f).
  { rewrite !filtered_one_mask. apply filter_ext. intros r.
    unfold active_predicates, region_ok. rewrite H. reflexivity. }
  split; [exact E|]. unfold run. rewrite E. reflexivity.
Qed.

Lemma scripts_agree_without_region_witness :
  filtered code_py sample_df sample_spec = filtered covid_py sample_df sample_spec
  /\ run code_py sample_df sample_spec = run covid_py sample_df sample_spec.
Proof. apply (scripts_agree_without_region sample_df sample_spec). reflexivity. Defined.

(** ** The loader *)

Lemma combine_map_r {A B : Type} (h : A -> B) (l : list A) :
  combine l (map h l) = map (fun a => (a, h a)) l.
Proof. induction l as [|a l IH]; simpl; [reflexivity | rewrite IH; reflexivity]. Qed.

(** A file the model follows is loaded line by line under one format, the
    one its first line gives. *)
Lemma load_data_rows (csv : list CsvRow) (df : DataFrame) :
  load_data csv = Some df ->
  exists fmt,
    df = map (load_line fmt) csv
    /\ (forall c, In c csv -> line_modelled fmt (csv_Year c, csv_Month c) = true)
    /\ (forall c0, hd_error csv = Some c0 ->
                   guess_datetime_format (csv_Year c0) (csv_Month c0) = Some fmt).
Proof.
  unfold load_data. destruct (deaths_modelled (map csv_Deaths csv)); [|discriminate].
  destruct csv as [|c0 csv].
  - simpl. intros [= <-]. exists Ymd. split; [reflexivity|].
    split; [intros c [] | discriminate].
  - unfold to_datetime.
    change (map (fun c => (csv_Year c, csv_Month c)) (c0 :: csv))
      with ((csv_Year c0, csv_Month c0)
              :: map (fun c => (csv_Year c, csv_Month c)) csv).
    cbv iota beta.
    destruct (guess_datetime_format (csv_Year c0) (csv_Month c0)) as [fmt|] eqn:G;
      [|discriminate].
    change ((csv_Year c0, csv_Month c0)
              :: map (fun c => (csv_Year c, csv_Month c)) csv)
      with (map (fun c => (csv_Year c, csv_Month c)) (c0 :: csv)).
    destruct (forallb (line_modelled fmt)
                (map (fun c => (csv_Year c, csv_Month c)) (c0 :: csv))) eqn:F;
      [|discriminate].
    unfold option_map. intros [= <-]. exists fmt. split; [|split].
    + rewrite map_map, combine_map_r, map_map. reflexivity.
    + intros c Hc. rewrite forallb_forall in F. apply F.
      apply in_map_iff. exists c. auto.
    + intros c [= <-]. exact G.
Qed.



Lemma strptime_Some (fmt : DateFormat) (year month : Z) (t : Timestamp) :
  strptime fmt (year, month) = Some t ->
  ts_year t = year /\ 1679 <= year <= 2261 /\ 1 <= ts_month t <= 12
  /\ ts_month t = match fmt with Ymd => month | YmdDash => - month end.
Proof.
  unfold strptime, year_in_range, month_under, month_ok. simpl.
  destruct ((1679 <=? year) && (year <=? 2261)) eqn:Hy; [|discriminate].
  apply andb_true_iff in Hy. destruct Hy as [H1 H2]. apply Z.leb_le in H1, H2.
  destruct fmt.
  - destruct ((1 <=? month) && (month <=? 12)) eqn:Hm; [|discriminate].
    apply andb_true_iff in Hm. destruct Hm as [H3 H4]. apply Z.leb_le in H3, H4.
    intros [= <-]. simpl. lia.
  - destruct ((1 <=? - month) && (- month <=? 12)) eqn:Hm; [|discriminate].
    apply andb_true_iff in Hm. destruct Hm as [H3 H4]. apply Z.leb_le in H3, H4.
    intros [= <-]. simpl. lia.
Qed.



(** Whatever the format, a date of a loaded frame is in the year of its
    row. *)
Lemma loaded_dates_year (csv : list CsvRow) (df : DataFrame) (r : Row) (d : Timestamp) :
  load_data csv = Some df -> In r df -> Date r = Some d -> ts_year d = Year r.
Proof.
  intros Hl. destruct (load_data_rows csv df Hl) as (fmt & -> & _).
  rewrite in_map_iff. intros (c & <- & _). unfold load_line. simpl.
  intros Hd. apply strptime_Some in Hd. tauto.
Qed.



Lemma dict_get_In (d : list (string * string)) (k v : string) :
  dict_get d k = Some v -> In (k, v) d.
Proof.
  induction d as [|[k' v'] d IH]; simpl; [discriminate|].
  destruct (String.eqb k k') eqn:E.
  - apply String.eqb_eq in E. intros [= ->]. left. congruence.
  - intros H. right. apply IH, H.
Qed.

Lemma map_fillna_stable (d : list (string * string)) :
  (forall k v, In (k, v) d -> dict_get d v = None \/ dict_get d v = Some v) ->
  forall code, map_fillna d (map_fillna d code) = map_fillna d code.
Proof.
  intros Hd code. unfold map_fillna.
  destruct (dict_get d code) as [v|] eqn:E.
  - destruct (Hd code v (dict_get_In d code v E)) as [H | H]; rewrite H; reflexivity.
  - rewrite E. reflexivity.
Qed.

(** X24.  Labelling is stable: an age code or region code that is already
    a label, or that the table does not know, is left as it is, so
    labelling a second time changes nothing. *)
Theorem labels_stable (code : string) :
  map_fillna age_map (map_fillna age_map code) = map_fillna age_map code
  /\ map_fillna region_map (map_fillna region_map code) = map_fillna region_map code.
Proof.
  split; apply map_fillna_stable; intros k v Hin; simpl in Hin;
    repeat (destruct Hin as [[= <- <-] | Hin]; [vm_compute; auto|]);
    contradiction.
Qed.

(** ** The recent window under a one-year range *)

(** X25.  With both ends of the year slider on the same year, every dated
    row of a loaded dataset's view falls inside the twelve-month window
    (whatever the format of the date column, a date is in the year of its
    row), so [recent_deaths] is the deaths of the dated rows of the view. *)
Theorem recent_deaths_single_year
        (s : Script) (csv : list CsvRow) (df : DataFrame) (f : FilterSpec) :
  load_data csv = Some df ->
  fst (year_range f) = snd (year_range f) ->
  recent_deaths (filtered s df f)
  = total_deaths (filter (fun r => notna (Date r)) (filtered s df f)).
Proof.
  intros Hload Hyr. set (fv := filtered s df f).
  assert (Hrow : forall r, In r fv ->
                           forall d, Date r = Some d -> ts_year d = fst (year_range f)).
  { intros r Hr d Hd. apply filtered_In in Hr. destruct Hr as [Hin Hp].
    pose proof (loaded_dates_year csv df r d Hload Hin Hd) as Hl.
    unfold active_predicates in Hp. rewrite !andb_true_iff in Hp.
    destruct Hp as (_ & Hy). unfold year_ok in Hy.
    rewrite andb_true_iff, !Z.leb_le in Hy. lia. }
  unfold recent_deaths, total_deaths. do 2 f_equal.
  destruct (max_date fv) as [m|] eqn:Hm.
  - rewrite (recent_of_max fv m Hm). apply filter_ext_in. intros r Hr.
    unfold in_last_12_months. destruct (Date r) as [d|] eqn:Hd; [|reflexivity].
    simpl. apply ts_leb_spec. left. simpl.
    destruct (max_date_is_max fv m Hm) as ((rm & Hrm & Hdm) & _).
    rewrite (Hrow r Hr d Hd), (Hrow rm Hrm m Hdm). lia.
  - rewrite (recent_of_NaT fv Hm). symmetry.
    assert (Hnone : forall r, In r fv -> Date r = None) by (apply max_date_NaT, Hm).
    clear -Hnone. induction fv as [|r fv IH]; [reflexivity|]. simpl.
    rewrite (Hnone r (or_introl eq_refl)). simpl. apply IH.
    intros r' Hr'. apply Hnone. right. exact Hr'.
Qed.

Lemma recent_deaths_single_year_witness :
  let f := mkFilterSpec "All regions" "All income levels" []
                        ["15–64"%string; "65+"%string] (2021, 2021) in
  load_data sample_csv = Some sample_df
  /\ recent_deaths (filtered code_py sample_df f)
     = total_deaths (filter (fun r => notna (Date r))
                            (filtered code_py sample_df f)).
Proof.
  split; [reflexivity|].
  apply (recent_deaths_single_year code_py sample_csv sample_df
           (mkFilterSpec "All regions" "All income levels" []
                         ["15–64"%string; "65+"%string] (2021, 2021)));
    reflexivity.
Defined.

(** ** The median of the time series *)








Lemma median_None_iff (l : list Z) : median l = None <-> l = [].
Proof.
  unfold median. rewrite (Permutation_length (sort_values_perm Z.leb l)).
  destruct l as [|x l]; [simpl; tauto|].
  split; [|discriminate]. cbn [List.length].
  destruct (Nat.even (S (List.length l))); discriminate.
Qed.

(** X10.  The two statistics of the time series in [code.py], median and
    mode, are undefined (NaN, None) exactly when no row of the view is
    dated, that is when the time series has no row at all. *)
Theorem ts_statistics_undefined_iff_undated (fv : DataFrame) :
  (mode_deaths fv = None <-> forall r, In r fv -> Date r = None)
  /\ (median_deaths fv = None <-> forall r, In r fv -> Date r = None).
Proof.
  split; [apply mode_deaths_None_iff|].
  unfold median_deaths. rewrite median_None_iff, <- ts_nil_iff.
  destruct (ts fv); simpl; split; congruence.
Qed.



(** * Rows without a date *)







(** * The emptiness check *)

Lemma mask_nil_iff {A : Type} (p : A -> bool) (l : list A) :
  filter p l = [] <-> forall x, In x l -> p x = false.
Proof.
  induction l as [|a l IH]; simpl.
  - split; [intros _ x [] | reflexivity].
  - destruct (p a) eqn:E.
    + split; [discriminate|]. intros H. specialize (H a (or_introl eq_refl)).
      congruence.
    + rewrite IH. split.
      * intros H x [<- | Hx]; [exact E | apply H, Hx].
      * intros H x Hx. apply H. right. exact Hx.
Qed.

Lemma kpi_block_nonempty (fv : DataFrame) :
  fv <> [] -> exists k, kpi_block fv = inr k.
Proof.
  intros Hne. unfold kpi_block, top_agegroup, top_age_deaths.
  destruct (age_summary fv) as [|[a v] t] eqn:E.
  - apply age_summary_nil_iff in E. contradiction.
  - simpl. eauto.
Qed.

Lemma script_to_kpis_cases (s : Script) (df : DataFrame) (f : FilterSpec) :
  (filter (active_predicates s f) df = []
   /\ script_to_kpis s df f = Stop no_data_message)
  \/ (filter (active_predicates s f) df <> []
      /\ exists k, script_to_kpis s df f = Shown k).
Proof.
  unfold script_to_kpis, run. rewrite filtered_one_mask.
  destruct (filter (active_predicates s f) df) as [|r fv] eqn:E.
  - left. split; reflexivity.
  - right. split; [discriminate|].
    destruct (kpi_block_nonempty (r :: fv)) as [k Hk]; [discriminate|].
    simpl. rewrite Hk. eauto.
Qed.

(** C9.  The filter is five boolean masks and cannot raise: for every
    selection its result is the list of the rows that pass the active
    predicates, the empty list included.  The script shows the guidance
    message and stops exactly when no row passes; it reaches the KPI row
    exactly when some row passes; and it never raises on the way, although
    the KPI statements would raise an IndexError on an empty view: the
    emptiness check is what keeps every reducer away from it. *)
Theorem empty_view_stops_before_kpis (s : Script) (df : DataFrame) (f : FilterSpec) :
  filtered s df f = filter (active_predicates s f) df
  /\ ((forall r, In r df -> active_predicates s f r = false)
      <-> script_to_kpis s df f = Stop no_data_message)
  /\ ((exists r, In r df /\ active_predicates s f r = true)
      <-> exists k, script_to_kpis s df f = Shown k)
  /\ (forall e, script_to_kpis s df f <> Raise e)
  /\ kpi_block [] = inl IndexError.
Proof.
  split; [apply filtered_one_mask|].
  pose proof (mask_nil_iff (active_predicates s f) df) as Hnil.
  destruct (script_to_kpis_cases s df f) as [[Hv Hr] | [Hv (k & Hr)]].
  - split; [split; [intros _; exact Hr | intros _; apply Hnil, Hv]|].
    split.
    + split.
      * intros (r & Hin & Hp). rewrite (proj1 Hnil Hv r Hin) in Hp. discriminate.
      * intros (k & Hk). rewrite Hr in Hk. discriminate.
    + split; [intros e He; rewrite Hr in He; discriminate | reflexivity].
  - assert (Hex : exists r, In r df /\ active_predicates s f r = true).
    { destruct (filter (active_predicates s f) df) as [|r fv] eqn:E; [contradiction|].
      exists r. apply filter_In. rewrite E. left. reflexivity. }
    split.
    + split.
      * intros Hall. exfalso. apply Hv, Hnil, Hall.
      * intros Hs. rewrite Hr in Hs. discriminate.
    + split; [split; [intros _; eauto | intros _; exact Hex]|].
      split; [intros e He; rewrite Hr in He; discriminate | reflexivity].
Qed.

